(** * tabli: the tab manager's application state (tabManagerState.js)

    The store is an immutable record holding two keyed indices over tab
    windows: [windowIdMap] (open windows, by Chrome window id) and
    [bookmarkIdMap] (saved windows, by bookmark folder id).  Every method of
    the JavaScript class returns a new record; here each method is a function
    from the receiver ([this]) and its arguments to the new store.

    Immutable.Map is rendered as stdpp's [gmap]: [set] is insert, [delete] is
    delete, [get] is lookup (absent = [None], the JavaScript [undefined]).
    Window ids and bookmark folder ids are integers ([Z]); the record's
    defaults for the three scalar fields are [-1].  The order in which a map
    lists its values ([toIndexedSeq().toArray()]) is left open: the store is
    parametrised by a listing function, of which the theorems assume at most
    that it lists every value once. *)

From stdpp Require Import gmap strings list fin_maps.

Local Open Scope Z_scope.

(** ** Data handed over by the host *)

(** A tab as Chrome reports it. *)
Record ChromeTab := mkChromeTab {
  tabId : Z;
  tabUrl : string;
  tabActive : bool
}.

(** A Chrome window snapshot: the store reads [id] and [focused] only. *)
Module ChromeWindow.
Record t := mk {
  id : Z;
  focused : bool;
  tabs : list ChromeTab
}.
End ChromeWindow.

(** A bookmark node; a bookmark folder is a node with children. *)
Record BookmarkNode := mkBookmarkNode {
  nodeId : Z;
  nodeUrl : string
}.

Module BookmarkFolder.
Record t := mk {
  id : Z;
  title : string;
  children : list BookmarkNode
}.
End BookmarkFolder.

(** ** Tab windows *)

Record TabItem := mkTabItem {
  itemUrl : string;
  itemOpen : bool;
  openTabId : Z;
  itemActive : bool;
  itemSaved : bool;
  savedBookmarkId : Z
}.

(** The window entity.  The store reads the fields [open], [openWindowId],
    [saved], [savedFolderId] and [windowType]; the tab items are payload it
    never inspects.  [openTabCount], which [countOpenTabs] reads, is a getter
    owned by tabWindow.js: the store takes it as a parameter. *)
Record TabWindow := mkTabWindow {
  saved : bool;
  savedFolderId : Z;
  open : bool;
  openWindowId : Z;
  windowType : string;
  tabItems : list TabItem
}.

#[global] Instance ChromeTab_eq_dec : EqDecision ChromeTab.
Proof. solve_decision. Defined.
#[global] Instance TabItem_eq_dec : EqDecision TabItem.
Proof. solve_decision. Defined.
#[global] Instance TabWindow_eq_dec : EqDecision TabWindow.
Proof. solve_decision. Defined.

(** ** The store record *)

Record TabManagerState := mkState {
  windowIdMap : gmap Z TabWindow;     (* maps from chrome window id for open windows *)
  bookmarkIdMap : gmap Z TabWindow;   (* maps from bookmark id for saved windows *)
  folderId : Z;
  archiveFolderId : Z;
  currentWindowId : Z                 (* chrome window id of window with focus *)
}.

(** [new TabManagerState()]: the record's defaults. *)
Definition emptyState : TabManagerState := mkState ∅ ∅ (-1) (-1) (-1).

(** [this.set('windowIdMap', m)] and friends. *)
Definition set_windowIdMap (m : gmap Z TabWindow) (st : TabManagerState) : TabManagerState :=
  mkState m (bookmarkIdMap st) (folderId st) (archiveFolderId st) (currentWindowId st).

Definition set_bookmarkIdMap (m : gmap Z TabWindow) (st : TabManagerState) : TabManagerState :=
  mkState (windowIdMap st) m (folderId st) (archiveFolderId st) (currentWindowId st).

Definition set_currentWindowId (w : Z) (st : TabManagerState) : TabManagerState :=
  mkState (windowIdMap st) (bookmarkIdMap st) (folderId st) (archiveFolderId st) w.

(** ** Methods that do not call into tabWindow.js *)

Definition registerTabWindow (st : TabManagerState) (tabWindow : TabWindow) : TabManagerState :=
  let nextWindowIdMap :=
    if open tabWindow then <[openWindowId tabWindow := tabWindow]> (windowIdMap st)
    else windowIdMap st in
  let nextBookmarkIdMap :=
    if saved tabWindow then <[savedFolderId tabWindow := tabWindow]> (bookmarkIdMap st)
    else bookmarkIdMap st in
  set_bookmarkIdMap nextBookmarkIdMap (set_windowIdMap nextWindowIdMap st).

(** [_.reduce(tabWindows, (acc, w) => acc.registerTabWindow(w), this)] *)
Definition registerTabWindows (st : TabManagerState) (tabWindows : list TabWindow) : TabManagerState :=
  foldl registerTabWindow st tabWindows.

Definition setCurrentWindow (st : TabManagerState) (windowId : Z) : TabManagerState :=
  set_currentWindowId windowId st.

Definition removeBookmarkIdMapEntry (st : TabManagerState) (tabWindow : TabWindow) : TabManagerState :=
  set_bookmarkIdMap (delete (savedFolderId tabWindow) (bookmarkIdMap st)) st.

Definition getTabWindowByChromeId (st : TabManagerState) (windowId : Z) : option TabWindow :=
  windowIdMap st !! windowId.

Definition countOpenWindows (st : TabManagerState) : nat := size (windowIdMap st).

Definition countSavedWindows (st : TabManagerState) : nat := size (bookmarkIdMap st).

(** ** Events: one constructor per store-returning method *)

Inductive StoreOp :=
| RegisterTabWindow (tabWindow : TabWindow)
| RegisterTabWindows (tabWindows : list TabWindow)
| HandleTabWindowClosed (tabWindow : TabWindow)
| HandleTabClosed (tabWindow : TabWindow) (tabId : Z)
| HandleTabSaved (tabWindow : TabWindow) (tabItem : TabItem) (tabNode : BookmarkNode)
| HandleTabUnsaved (tabWindow : TabWindow) (tabItem : TabItem)
| HandleTabActivated (tabWindow : TabWindow) (tabId : Z)
| HandleTabUpdated (tabWindow : TabWindow) (tab : ChromeTab)
| AttachChromeWindow (tabWindow : TabWindow) (chromeWindow : ChromeWindow.t)
| SyncChromeWindow (chromeWindow : ChromeWindow.t)
| SyncWindowList (chromeWindowList : list ChromeWindow.t)
| SetCurrentWindow (windowId : Z)
| RemoveBookmarkIdMapEntry (tabWindow : TabWindow)
| UnmanageWindow (tabWindow : TabWindow)
| AttachBookmarkFolder (bookmarkFolder : BookmarkFolder.t) (chromeWindow : ChromeWindow.t).

(** ** Store well-formedness

    Each index is keyed by the field of the entity it indexes, and holds only
    entities carrying the matching flag. *)
Definition open_keyed (m : gmap Z TabWindow) : Prop :=
  map_Forall (λ k w, open w = true ∧ openWindowId w = k) m.

Definition saved_keyed (m : gmap Z TabWindow) : Prop :=
  map_Forall (λ k w, saved w = true ∧ savedFolderId w = k) m.

Definition store_ok (st : TabManagerState) : Prop :=
  open_keyed (windowIdMap st) ∧ saved_keyed (bookmarkIdMap st).

(** No saved entity of the index [m] carries the folder id [f]. *)
Definition folder_free (f : Z) (m : gmap Z TabWindow) : Prop :=
  map_Forall (λ _ e, saved e = true → savedFolderId e ≠ f) m.

(** The configuration: the two fields naming bookmark containers. *)
Definition config (st : TabManagerState) : Z * Z := (folderId st, archiveFolderId st).

(** The id of the last focused snapshot of a list, or [cur] when none is. *)
Definition lastFocused (cur : Z) (cws : list ChromeWindow.t) : Z :=
  default cur (ChromeWindow.id <$> last (filter (λ cw, ChromeWindow.focused cw = true) cws)).

(** ** tabWindow.js, as the specification describes it

    The entity transforms live in tabWindow.js, which the store only calls.
    The store's theorems below are stated for arbitrary transforms under the
    parts of their contract each theorem needs; this module gives one concrete
    set of transforms meeting the whole contract, on which the theorems are
    instantiated and evaluated. *)
Module TabWindowModel.

Definition makeOpenTabItem (tab : ChromeTab) : TabItem :=
  mkTabItem (tabUrl tab) true (tabId tab) (tabActive tab) false (-1).

Definition makeBookmarkedTabItem (node : BookmarkNode) : TabItem :=
  mkTabItem (nodeUrl node) false (-1) false true (nodeId node).

Definition resetSavedItem (ti : TabItem) : TabItem :=
  mkTabItem (itemUrl ti) false (-1) false (itemSaved ti) (savedBookmarkId ti).

Definition resetOpenItem (ti : TabItem) : TabItem :=
  mkTabItem (itemUrl ti) (itemOpen ti) (openTabId ti) (itemActive ti) false (-1).

Definition isTab (tid : Z) (ti : TabItem) : bool :=
  itemOpen ti && bool_decide (openTabId ti = tid).

Definition with_tabItems (w : TabWindow) (items : list TabItem) : TabWindow :=
  mkTabWindow (saved w) (savedFolderId w) (open w) (openWindowId w) (windowType w) items.

(** Modelled from the spec: [makeFromLiveSnapshot(liveSnapshot) -> Entity
    (open-only)], the source's [TabWindow.makeChromeTabWindow]. *)
Definition makeChromeTabWindow (chromeWindow : ChromeWindow.t) : TabWindow :=
  mkTabWindow false (-1) true (ChromeWindow.id chromeWindow) "normal"
    (makeOpenTabItem <$> ChromeWindow.tabs chromeWindow).

(** Modelled from the spec: [makeFromSavedFolder(folder) -> Entity
    (saved-only)], the source's [TabWindow.makeFolderTabWindow]. *)
Definition makeFolderTabWindow (bookmarkFolder : BookmarkFolder.t) : TabWindow :=
  mkTabWindow true (BookmarkFolder.id bookmarkFolder) false (-1) ""
    (makeBookmarkedTabItem <$> BookmarkFolder.children bookmarkFolder).

(** Modelled from the spec: [mergeLiveSnapshot(entity, liveSnapshot) ->
    Entity (sets/refreshes open fields, preserves saved fields)], the source's
    [TabWindow.updateWindow]. *)
Definition updateWindow (tabWindow : TabWindow) (chromeWindow : ChromeWindow.t) : TabWindow :=
  mkTabWindow (saved tabWindow) (savedFolderId tabWindow)
    true (ChromeWindow.id chromeWindow) "normal"
    ((resetSavedItem <$> filter (λ ti, itemSaved ti = true) (tabItems tabWindow))
       ++ (makeOpenTabItem <$> ChromeWindow.tabs chromeWindow)).

(** Modelled from the spec: [revertOpenState(entity) -> Entity (clears open
    fields, preserves saved fields if any)], the source's
    [TabWindow.removeOpenWindowState]. *)
Definition removeOpenWindowState (tabWindow : TabWindow) : TabWindow :=
  mkTabWindow (saved tabWindow) (savedFolderId tabWindow) false (-1) ""
    (resetSavedItem <$> filter (λ ti, itemSaved ti = true) (tabItems tabWindow)).

(** Modelled from the spec: [revertSavedState(entity) -> Entity (clears saved
    fields, preserves open fields if any)], the source's
    [TabWindow.removeSavedWindowState]. *)
Definition removeSavedWindowState (tabWindow : TabWindow) : TabWindow :=
  mkTabWindow false (-1) (open tabWindow) (openWindowId tabWindow) (windowType tabWindow)
    (resetOpenItem <$> filter (λ ti, itemOpen ti = true) (tabItems tabWindow)).

(** Modelled from the spec: [closeTabItem(entity, tabId) -> Entity]. *)
Definition closeTab (tabWindow : TabWindow) (tid : Z) : TabWindow :=
  with_tabItems tabWindow
    (omap (λ ti, if isTab tid ti
                 then (if itemSaved ti then Some (resetSavedItem ti) else None)
                 else Some ti) (tabItems tabWindow)).

(** Modelled from the spec: [saveTabItem(entity, item, node) -> Entity]. *)
Definition saveTab (tabWindow : TabWindow) (tabItem : TabItem) (tabNode : BookmarkNode) : TabWindow :=
  with_tabItems tabWindow
    ((λ ti, if bool_decide (ti = tabItem)
            then mkTabItem (itemUrl ti) (itemOpen ti) (openTabId ti) (itemActive ti)
                   true (nodeId tabNode)
            else ti) <$> tabItems tabWindow).

(** Modelled from the spec: [unsaveTabItem(entity, item) -> Entity]. *)
Definition unsaveTab (tabWindow : TabWindow) (tabItem : TabItem) : TabWindow :=
  with_tabItems tabWindow
    (omap (λ ti, if bool_decide (ti = tabItem)
                 then (if itemOpen ti then Some (resetOpenItem ti) else None)
                 else Some ti) (tabItems tabWindow)).

(** Modelled from the spec: [setActiveTabItem(entity, tabId) -> Entity]. *)
Definition setActiveTab (tabWindow : TabWindow) (tid : Z) : TabWindow :=
  with_tabItems tabWindow
    ((λ ti, mkTabItem (itemUrl ti) (itemOpen ti) (openTabId ti) (isTab tid ti)
              (itemSaved ti) (savedBookmarkId ti)) <$> tabItems tabWindow).

(** Modelled from the spec: [updateTabItem(entity, tabSnapshot) -> Entity]. *)
Definition updateTabItem (tabWindow : TabWindow) (tab : ChromeTab) : TabWindow :=
  with_tabItems tabWindow
    ((λ ti, if isTab (tabId tab) ti
            then mkTabItem (tabUrl tab) true (tabId tab) (tabActive tab)
                   (itemSaved ti) (savedBookmarkId ti)
            else ti) <$> tabItems tabWindow).

(** Modelled from the spec: [getOpen()] lists the entities of the index "in
    index iteration order", which Immutable.Map leaves unspecified; this is
    the listing by ascending key encoding. *)
Definition toArray (m : gmap Z TabWindow) : list TabWindow := (map_to_list m).*2.

End TabWindowModel.

(** ** The store's methods over the entity transforms *)

Section Store.

(** The functions imported from tabWindow.js. *)
Variable makeChromeTabWindow : ChromeWindow.t → TabWindow.
Variable makeFolderTabWindow : BookmarkFolder.t → TabWindow.
Variable updateWindow : TabWindow → ChromeWindow.t → TabWindow.
Variable removeOpenWindowState : TabWindow → TabWindow.
Variable removeSavedWindowState : TabWindow → TabWindow.
Variable closeTab : TabWindow → Z → TabWindow.
Variable saveTab : TabWindow → TabItem → BookmarkNode → TabWindow.
Variable unsaveTab : TabWindow → TabItem → TabWindow.
Variable setActiveTab : TabWindow → Z → TabWindow.
Variable updateTabItem : TabWindow → ChromeTab → TabWindow.

(** [m.toIndexedSeq().toArray()]: the values of an Immutable.Map in its
    iteration order. *)
Variable toArray : gmap Z TabWindow → list TabWindow.

Definition handleTabWindowClosed (st : TabManagerState) (tabWindow : TabWindow) : TabManagerState :=
  let closedWindowIdMap := delete (openWindowId tabWindow) (windowIdMap st) in
  let revertedWindow := removeOpenWindowState tabWindow in
  registerTabWindow (set_windowIdMap closedWindowIdMap st) revertedWindow.

Definition handleTabClosed (st : TabManagerState) (tabWindow : TabWindow) (tid : Z) : TabManagerState :=
  let updWindow := closeTab tabWindow tid in
  registerTabWindow st updWindow.

Definition handleTabSaved (st : TabManagerState) (tabWindow : TabWindow)
    (tabItem : TabItem) (tabNode : BookmarkNode) : TabManagerState :=
  let updWindow := saveTab tabWindow tabItem tabNode in
  registerTabWindow st updWindow.

Definition handleTabUnsaved (st : TabManagerState) (tabWindow : TabWindow)
    (tabItem : TabItem) : TabManagerState :=
  let updWindow := unsaveTab tabWindow tabItem in
  registerTabWindow st updWindow.

Definition handleTabActivated (st : TabManagerState) (tabWindow : TabWindow) (tid : Z) : TabManagerState :=
  let updWindow := setActiveTab tabWindow tid in
  registerTabWindow st updWindow.

Definition handleTabUpdated (st : TabManagerState) (tabWindow : TabWindow) (tab : ChromeTab) : TabManagerState :=
  let updWindow := updateTabItem tabWindow tab in
  registerTabWindow st updWindow.

Definition attachChromeWindow (st : TabManagerState) (tabWindow : TabWindow)
    (chromeWindow : ChromeWindow.t) : TabManagerState :=
  let oldTabWindow := windowIdMap st !! ChromeWindow.id chromeWindow in
  let rmStore :=
    match oldTabWindow with
    | Some old => handleTabWindowClosed st old
    | None => st
    end in
  let attachedTabWindow := updateWindow tabWindow chromeWindow in
  registerTabWindow rmStore attachedTabWindow.

Definition syncChromeWindow (st : TabManagerState) (chromeWindow : ChromeWindow.t) : TabManagerState :=
  let prevTabWindow := windowIdMap st !! ChromeWindow.id chromeWindow in
  let tabWindow :=
    match prevTabWindow with
    | Some prev => updateWindow prev chromeWindow
    | None => makeChromeTabWindow chromeWindow
    end in
  let stReg := registerTabWindow st tabWindow in
  if ChromeWindow.focused chromeWindow
  then set_currentWindowId (ChromeWindow.id chromeWindow) stReg
  else stReg.

(** The entity [syncChromeWindow] registers for a snapshot. *)
Definition syncedWindow (st : TabManagerState) (cw : ChromeWindow.t) : TabWindow :=
  match windowIdMap st !! ChromeWindow.id cw with
  | Some prev => updateWindow prev cw
  | None => makeChromeTabWindow cw
  end.

(** What one snapshot makes of the entity found under its id, if any. *)
Definition mergeSnapshot (prev : option TabWindow) (cw : ChromeWindow.t) : TabWindow :=
  match prev with
  | Some p => updateWindow p cw
  | None => makeChromeTabWindow cw
  end.

(** What a run of snapshots for one id makes of the entity found under it:
    the first merges into it (or creates one), each later one merges into the
    result of the one before. *)
Definition mergeAll (prev : option TabWindow) (cws : list ChromeWindow.t) : option TabWindow :=
  foldl (λ acc cw, Some (mergeSnapshot acc cw)) prev cws.

(** The entities a fold of [syncChromeWindow] registers, in order. *)
Fixpoint syncTrace (st : TabManagerState) (cws : list ChromeWindow.t) : list TabWindow :=
  match cws with
  | [] => []
  | cw :: rest => syncedWindow st cw :: syncTrace (syncChromeWindow st cw) rest
  end.

Definition getOpen (st : TabManagerState) : list TabWindow :=
  toArray (windowIdMap st).

Definition syncWindowList (st : TabManagerState) (chromeWindowList : list ChromeWindow.t) : TabManagerState :=
  let tabWindows := getOpen st in
  let chromeIds := ChromeWindow.id <$> chromeWindowList in
  let chromeIdSet : gset Z := list_to_set chromeIds in
  let closedWindows := filter (λ tw, openWindowId tw ∉ chromeIdSet) tabWindows in
  let closedWinStore := foldl handleTabWindowClosed st closedWindows in
  foldl syncChromeWindow closedWinStore chromeWindowList.

Definition unmanageWindow (st : TabManagerState) (tabWindow : TabWindow) : TabManagerState :=
  let rmStore := removeBookmarkIdMapEntry st tabWindow in
  let umWindow := removeSavedWindowState tabWindow in
  registerTabWindow rmStore umWindow.

Definition attachBookmarkFolder (st : TabManagerState) (bookmarkFolder : BookmarkFolder.t)
    (chromeWindow : ChromeWindow.t) : TabManagerState :=
  let folderTabWindow := makeFolderTabWindow bookmarkFolder in
  let mergedTabWindow := updateWindow folderTabWindow chromeWindow in
  registerTabWindow st mergedTabWindow.

Definition getAll (st : TabManagerState) : list TabWindow :=
  let openWindows := getOpen st in
  let closedSavedWindows := filter (λ w, open w = false) (toArray (bookmarkIdMap st)) in
  openWindows ++ closedSavedWindows.

Definition getTabWindowsByType (st : TabManagerState) (wt : string) : list TabWindow :=
  filter (λ w, windowType w = wt) (getOpen st).

(** One store transition per event. *)
Definition applyOp (st : TabManagerState) (op : StoreOp) : TabManagerState :=
  match op with
  | RegisterTabWindow w => registerTabWindow st w
  | RegisterTabWindows ws => registerTabWindows st ws
  | HandleTabWindowClosed w => handleTabWindowClosed st w
  | HandleTabClosed w tid => handleTabClosed st w tid
  | HandleTabSaved w ti node => handleTabSaved st w ti node
  | HandleTabUnsaved w ti => handleTabUnsaved st w ti
  | HandleTabActivated w tid => handleTabActivated st w tid
  | HandleTabUpdated w tab => handleTabUpdated st w tab
  | AttachChromeWindow w cw => attachChromeWindow st w cw
  | SyncChromeWindow cw => syncChromeWindow st cw
  | SyncWindowList cws => syncWindowList st cws
  | SetCurrentWindow wid => setCurrentWindow st wid
  | RemoveBookmarkIdMapEntry w => removeBookmarkIdMapEntry st w
  | UnmanageWindow w => unmanageWindow st w
  | AttachBookmarkFolder f cw => attachBookmarkFolder st f cw
  end.

(** Stores reachable from an empty one: the indices start empty, the
    configuration is whatever construction put there. *)
Inductive reachable : TabManagerState → Prop :=
| reachable_init (fid afid cur : Z) : reachable (mkState ∅ ∅ fid afid cur)
| reachable_step st op : reachable st → reachable (applyOp st op).

(** ** Frame lemmas for [registerTabWindow] *)

Lemma register_windowIdMap st w :
  windowIdMap (registerTabWindow st w) =
    if open w then <[openWindowId w := w]> (windowIdMap st) else windowIdMap st.
Proof. reflexivity. Qed.

Lemma register_bookmarkIdMap st w :
  bookmarkIdMap (registerTabWindow st w) =
    if saved w then <[savedFolderId w := w]> (bookmarkIdMap st) else bookmarkIdMap st.
Proof. reflexivity. Qed.

Lemma register_currentWindowId st w :
  currentWindowId (registerTabWindow st w) = currentWindowId st.
Proof. reflexivity. Qed.

Lemma register_config st w : config (registerTabWindow st w) = config st.
Proof. reflexivity. Qed.

Lemma close_config st w : config (handleTabWindowClosed st w) = config st.
Proof. reflexivity. Qed.

Lemma close_currentWindowId st w :
  currentWindowId (handleTabWindowClosed st w) = currentWindowId st.
Proof. reflexivity. Qed.

Lemma sync_config st cw : config (syncChromeWindow st cw) = config st.
Proof. unfold syncChromeWindow. by destruct (ChromeWindow.focused cw). Qed.

(** A field preserved by every step of a fold is preserved by the fold. *)
Lemma foldl_preserves {A B C} (f : A → B → A) (g : A → C) (l : list B) (a : A) :
  (∀ a b, g (f a b) = g a) → g (foldl f a l) = g a.
Proof.
  intros Hstep. revert a.
  induction l as [|b l IH]; intros a; [done|].
  change (g (foldl f (f a b) l) = g a). by rewrite IH, Hstep.
Qed.

(** A predicate preserved by every step of a fold is preserved by the fold. *)
Lemma foldl_invariant {A B} (P : A → Prop) (f : A → B → A) (l : list B) (a : A) :
  (∀ a b, P a → P (f a b)) → P a → P (foldl f a l).
Proof.
  intros Hstep. revert a.
  induction l as [|b l IH]; intros a Ha; [done|].
  change (P (foldl f (f a b) l)). apply IH, Hstep, Ha.
Qed.

(** ** Well-formedness is preserved by every method *)

Lemma store_ok_register st w : store_ok st → store_ok (registerTabWindow st w).
Proof.
  intros [Ho Hs]. split.
  - unfold open_keyed. rewrite register_windowIdMap.
    destruct (open w) eqn:Hopen; [|done].
    by apply map_Forall_insert_2.
  - unfold saved_keyed. rewrite register_bookmarkIdMap.
    destruct (saved w) eqn:Hsaved; [|done].
    by apply map_Forall_insert_2.
Qed.

Lemma store_ok_set_windowIdMap_delete st k :
  store_ok st → store_ok (set_windowIdMap (delete k (windowIdMap st)) st).
Proof. intros [Ho Hs]. split; [by apply map_Forall_delete | done]. Qed.

Lemma store_ok_close st w : store_ok st → store_ok (handleTabWindowClosed st w).
Proof.
  intros Hok. unfold handleTabWindowClosed.
  by apply store_ok_register, store_ok_set_windowIdMap_delete.
Qed.

Lemma store_ok_set_currentWindowId st k :
  store_ok st → store_ok (set_currentWindowId k st).
Proof. by intros [Ho Hs]. Qed.

Lemma store_ok_removeBookmarkIdMapEntry st w :
  store_ok st → store_ok (removeBookmarkIdMapEntry st w).
Proof. intros [Ho Hs]. split; [done | by apply map_Forall_delete]. Qed.

Lemma store_ok_attachChromeWindow st w cw :
  store_ok st → store_ok (attachChromeWindow st w cw).
Proof.
  intros Hok. unfold attachChromeWindow. apply store_ok_register.
  destruct (windowIdMap st !! ChromeWindow.id cw); [by apply store_ok_close | done].
Qed.

Lemma store_ok_syncChromeWindow st cw :
  store_ok st → store_ok (syncChromeWindow st cw).
Proof.
  intros Hok. unfold syncChromeWindow.
  destruct (ChromeWindow.focused cw);
    [apply store_ok_set_currentWindowId|]; by apply store_ok_register.
Qed.

Lemma store_ok_syncWindowList st cws :
  store_ok st → store_ok (syncWindowList st cws).
Proof.
  intros Hok. unfold syncWindowList.
  apply foldl_invariant; [apply store_ok_syncChromeWindow|].
  apply foldl_invariant; [apply store_ok_close | done].
Qed.

Lemma store_ok_applyOp st op : store_ok st → store_ok (applyOp st op).
Proof.
  intros Hok. destruct op; simpl.
  - by apply store_ok_register.
  - unfold registerTabWindows.
    apply foldl_invariant; [apply store_ok_register | done].
  - by apply store_ok_close.
  - by apply store_ok_register.
  - by apply store_ok_register.
  - by apply store_ok_register.
  - by apply store_ok_register.
  - by apply store_ok_register.
  - by apply store_ok_attachChromeWindow.
  - by apply store_ok_syncChromeWindow.
  - by apply store_ok_syncWindowList.
  - by apply store_ok_set_currentWindowId.
  - by apply store_ok_removeBookmarkIdMapEntry.
  - by apply store_ok_register, store_ok_removeBookmarkIdMapEntry.
  - by apply store_ok_register.
Qed.

Lemma reachable_store_ok st : reachable st → store_ok st.
Proof.
  induction 1 as [fid afid cur | st op _ IH].
  - split; apply map_Forall_empty.
  - by apply store_ok_applyOp.
Qed.

(** ** Registration *)

(** C1: in every store reachable from an empty one by the store's methods,
    every entity of [windowIdMap] has [open = true] and every entity of
    [bookmarkIdMap] has [saved = true].  [registerTabWindow] is the only
    method that inserts, and it tests the flag before each insertion, so the
    property holds whatever the entity transforms return. *)
Theorem reachable_index_flags st :
  reachable st →
  (∀ k w, windowIdMap st !! k = Some w → open w = true) ∧
  (∀ k w, bookmarkIdMap st !! k = Some w → saved w = true).
Proof.
  intros Hreach. destruct (reachable_store_ok st Hreach) as [Ho Hs].
  split; intros k w Hkw.
  - by destruct (Ho k w Hkw).
  - by destruct (Hs k w Hkw).
Qed.

(** C8: registering the same entity twice in succession gives the same
    store as registering it once. *)
Theorem register_idempotent st w :
  registerTabWindow (registerTabWindow st w) w = registerTabWindow st w.
Proof.
  unfold registerTabWindow, set_bookmarkIdMap, set_windowIdMap; simpl.
  destruct (open w), (saved w); f_equal; apply insert_insert_eq.
Qed.

(** ** Configuration is never written *)

Lemma applyOp_config st op : config (applyOp st op) = config st.
Proof.
  destruct op; simpl; try reflexivity.
  - unfold registerTabWindows. apply foldl_preserves, register_config.
  - unfold attachChromeWindow. rewrite register_config.
    destruct (windowIdMap st !! ChromeWindow.id chromeWindow); [apply close_config | done].
  - apply sync_config.
  - unfold syncWindowList.
    rewrite (foldl_preserves syncChromeWindow config) by apply sync_config.
    apply foldl_preserves, close_config.
Qed.

(** C9: no store method changes [folderId] or [archiveFolderId]. *)
Theorem applyOp_preserves_folder_ids st op :
  folderId (applyOp st op) = folderId st ∧
  archiveFolderId (applyOp st op) = archiveFolderId st.
Proof.
  pose proof (applyOp_config st op) as Hcfg. unfold config in Hcfg.
  by inversion Hcfg.
Qed.

(** ** Focus tracking *)

Lemma sync_currentWindowId st cw :
  currentWindowId (syncChromeWindow st cw) =
    if ChromeWindow.focused cw then ChromeWindow.id cw else currentWindowId st.
Proof. unfold syncChromeWindow. by destruct (ChromeWindow.focused cw). Qed.

Lemma lastFocused_cons cur cw cws :
  lastFocused cur (cw :: cws) =
    lastFocused (if ChromeWindow.focused cw then ChromeWindow.id cw else cur) cws.
Proof.
  unfold lastFocused. rewrite filter_cons.
  destruct (ChromeWindow.focused cw) eqn:Hf.
  - rewrite decide_True by done. rewrite last_cons.
    by destruct (last (filter _ cws)).
  - by rewrite decide_False by done.
Qed.

Lemma foldl_sync_currentWindowId st cws :
  currentWindowId (foldl syncChromeWindow st cws) = lastFocused (currentWindowId st) cws.
Proof.
  revert st. induction cws as [|cw cws IH]; intros st; [done|].
  change (currentWindowId (foldl syncChromeWindow (syncChromeWindow st cw) cws)
          = lastFocused (currentWindowId st) (cw :: cws)).
  by rewrite IH, sync_currentWindowId, lastFocused_cons.
Qed.

Lemma filter_focused_nil (cws : list ChromeWindow.t) :
  Forall (λ c, ChromeWindow.focused c = false) cws →
  filter (λ c, ChromeWindow.focused c = true) cws = [].
Proof.
  induction 1 as [|c l Hc _ IH]; [done|].
  rewrite filter_cons, decide_False by congruence. exact IH.
Qed.

Lemma lastFocused_unique cur pre cw post :
  ChromeWindow.focused cw = true →
  Forall (λ c, ChromeWindow.focused c = false) post →
  lastFocused cur (pre ++ cw :: post) = ChromeWindow.id cw.
Proof.
  intros Hcw Hpost. unfold lastFocused.
  rewrite filter_app, filter_cons, decide_True by done.
  rewrite (filter_focused_nil post Hpost).
  by rewrite last_snoc.
Qed.

(** C7: after [syncWindowList], [currentWindowId] is the id of the last
    snapshot of the list with [focused = true], and is unchanged when no
    snapshot is focused; in particular, when exactly one snapshot is focused,
    it is that snapshot's id. *)
Theorem syncWindowList_focus st cws :
  currentWindowId (syncWindowList st cws) = lastFocused (currentWindowId st) cws ∧
  (Forall (λ c, ChromeWindow.focused c = false) cws →
     currentWindowId (syncWindowList st cws) = currentWindowId st) ∧
  (∀ pre cw post,
     cws = pre ++ cw :: post →
     ChromeWindow.focused cw = true →
     Forall (λ c, ChromeWindow.focused c = false) (pre ++ post) →
     currentWindowId (syncWindowList st cws) = ChromeWindow.id cw).
Proof.
  assert (currentWindowId (syncWindowList st cws)
          = lastFocused (currentWindowId st) cws) as Hgen.
  { unfold syncWindowList. rewrite foldl_sync_currentWindowId. f_equal.
    apply foldl_preserves, close_currentWindowId. }
  split; [exact Hgen|]. rewrite Hgen. split.
  - intros Hnone. unfold lastFocused.
    by rewrite (filter_focused_nil cws Hnone).
  - intros pre cw post -> Hcw Hrest.
    apply lastFocused_unique; [done|].
    by apply Forall_app in Hrest as [_ ?].
Qed.

(** ** The contract of the entity transforms

    Section 6 of the specification, clause by clause.  Each theorem below
    depends on exactly the clauses its proof uses. *)

Hypothesis toArray_values : ∀ m, toArray m ≡ₚ (map_to_list m).*2.

Hypothesis makeChromeTabWindow_open : ∀ cw,
  open (makeChromeTabWindow cw) = true ∧
  openWindowId (makeChromeTabWindow cw) = ChromeWindow.id cw.

Hypothesis makeChromeTabWindow_unsaved : ∀ cw,
  saved (makeChromeTabWindow cw) = false.

Hypothesis updateWindow_open : ∀ w cw,
  open (updateWindow w cw) = true ∧
  openWindowId (updateWindow w cw) = ChromeWindow.id cw.

Hypothesis updateWindow_saved : ∀ w cw,
  saved (updateWindow w cw) = saved w ∧
  savedFolderId (updateWindow w cw) = savedFolderId w.

Hypothesis removeOpenWindowState_open : ∀ w,
  open (removeOpenWindowState w) = false.

Hypothesis removeOpenWindowState_saved : ∀ w,
  saved (removeOpenWindowState w) = saved w ∧
  savedFolderId (removeOpenWindowState w) = savedFolderId w.

Hypothesis makeFolderTabWindow_saved : ∀ f,
  saved (makeFolderTabWindow f) = true ∧
  savedFolderId (makeFolderTabWindow f) = BookmarkFolder.id f.

(** ** Closing a window *)

Lemma close_windowIdMap st w :
  windowIdMap (handleTabWindowClosed st w) = delete (openWindowId w) (windowIdMap st).
Proof.
  unfold handleTabWindowClosed. rewrite register_windowIdMap.
  by rewrite removeOpenWindowState_open.
Qed.

Lemma close_bookmarkIdMap st w :
  bookmarkIdMap (handleTabWindowClosed st w) =
    if saved w then <[savedFolderId w := removeOpenWindowState w]> (bookmarkIdMap st)
    else bookmarkIdMap st.
Proof.
  unfold handleTabWindowClosed. rewrite register_bookmarkIdMap.
  destruct (removeOpenWindowState_saved w) as [-> ->]. reflexivity.
Qed.

(** An entity with neither flag is in no index of a well-formed store. *)
Lemma store_ok_flagless st w k :
  store_ok st → open w = false →
  windowIdMap st !! k ≠ Some w.
Proof.
  intros [Ho _] Hopen Hk. destruct (Ho k w Hk) as [Hopen' _]. congruence.
Qed.

Lemma store_ok_unsaved st w k :
  store_ok st → saved w = false →
  bookmarkIdMap st !! k ≠ Some w.
Proof.
  intros [_ Hs] Hsaved Hk. destruct (Hs k w Hk) as [Hsaved' _]. congruence.
Qed.

(** C3: [handleTabWindowClosed] removes the entity's [openWindowId] from
    [windowIdMap]; when the entity was saved, its reverted, saved-only form
    is in [bookmarkIdMap] under its [savedFolderId]; when it was not saved,
    the reverted form is not registered at all: the store changes by the
    deletion only, and neither the entity nor its reverted form is left in
    either index of a well-formed store. *)
Theorem handleTabWindowClosed_effect st w :
  let st' := handleTabWindowClosed st w in
  let r := removeOpenWindowState w in
  windowIdMap st' !! openWindowId w = None ∧
  (saved w = true →
     bookmarkIdMap st' !! savedFolderId r = Some r ∧
     savedFolderId r = savedFolderId w ∧ saved r = true ∧ open r = false) ∧
  (saved w = false →
     st' = set_windowIdMap (delete (openWindowId w) (windowIdMap st)) st ∧
     (store_ok st →
        ∀ k, windowIdMap st' !! k ≠ Some w ∧ bookmarkIdMap st' !! k ≠ Some w ∧
             windowIdMap st' !! k ≠ Some r ∧ bookmarkIdMap st' !! k ≠ Some r)).
Proof.
  intros st' r.
  destruct (removeOpenWindowState_saved w) as [Hrs Hrf].
  pose proof (removeOpenWindowState_open w) as Hro.
  split; [|split].
  - subst st'. rewrite close_windowIdMap. apply lookup_delete_eq.
  - intros Hsaved. subst st' r. rewrite close_bookmarkIdMap, Hsaved, Hrf.
    rewrite lookup_insert_eq. repeat split; congruence.
  - intros Hsaved.
    assert (st' = set_windowIdMap (delete (openWindowId w) (windowIdMap st)) st) as Heq.
    { subst st'. unfold handleTabWindowClosed, registerTabWindow.
      rewrite Hro, Hrs, Hsaved. by destruct st. }
    split; [exact Heq|].
    intros Hok k.
    assert (store_ok st') as Hok' by (subst st'; by apply store_ok_close).
    repeat split.
    + rewrite Heq. simpl. intros Hk.
      apply lookup_delete_Some in Hk as [Hne Hk].
      destruct Hok as [Ho _]. destruct (Ho k w Hk) as [_ Hkey]. congruence.
    + by apply store_ok_unsaved.
    + by apply store_ok_flagless.
    + apply store_ok_unsaved; [done | subst r; congruence].
Qed.

(** ** Attaching a Chrome window *)

Lemma attach_windowIdMap_lookup st b cw :
  windowIdMap (attachChromeWindow st b cw) !! ChromeWindow.id cw = Some (updateWindow b cw).
Proof.
  unfold attachChromeWindow. rewrite register_windowIdMap.
  destruct (updateWindow_open b cw) as [-> ->]. apply lookup_insert_eq.
Qed.

Lemma attach_bookmarkIdMap_lookup st b cw :
  saved b = true →
  bookmarkIdMap (attachChromeWindow st b cw) !! savedFolderId b = Some (updateWindow b cw).
Proof.
  intros Hsaved. unfold attachChromeWindow. rewrite register_bookmarkIdMap.
  destruct (updateWindow_saved b cw) as [-> ->]. rewrite Hsaved. apply lookup_insert_eq.
Qed.

(** C5: closing an open and saved entity and then attaching its reverted
    form (the entity [bookmarkIdMap] holds after the close) to a snapshot
    with the same window id yields a store holding, in both indices, an
    entity with both flags set, the original window id and the original
    [savedFolderId]. *)
Theorem close_then_attach_roundtrip st w cw :
  open w = true → saved w = true →
  ChromeWindow.id cw = openWindowId w →
  let st1 := handleTabWindowClosed st w in
  let st2 := attachChromeWindow st1 (removeOpenWindowState w) cw in
  bookmarkIdMap st1 !! savedFolderId w = Some (removeOpenWindowState w) ∧
  ∃ w', windowIdMap st2 !! openWindowId w = Some w' ∧
        bookmarkIdMap st2 !! savedFolderId w = Some w' ∧
        open w' = true ∧ saved w' = true ∧
        openWindowId w' = openWindowId w ∧
        savedFolderId w' = savedFolderId w.
Proof.
  intros Hopen Hsaved Hid st1 st2.
  destruct (removeOpenWindowState_saved w) as [Hrs Hrf].
  set (r := removeOpenWindowState w) in *.
  split.
  { subst st1. rewrite close_bookmarkIdMap, Hsaved. apply lookup_insert_eq. }
  exists (updateWindow r cw).
  destruct (updateWindow_open r cw) as [Huo Huk].
  destruct (updateWindow_saved r cw) as [Hus Huf].
  repeat split.
  - subst st2. rewrite <- Hid. apply attach_windowIdMap_lookup.
  - subst st2. rewrite <- Hrf. apply attach_bookmarkIdMap_lookup. congruence.
  - exact Huo.
  - congruence.
  - congruence.
  - congruence.
Qed.

(** C4 (amended): in a well-formed store where [a] occupies [windowIdMap] at
    the snapshot's id, [attachChromeWindow] with an entity [b] changes
    [windowIdMap] at that key only, where it leaves the merged form of [b]:
    [a] is at no key (unless the merged entity is equal to [a], and then only
    at the snapshot's id).  [bookmarkIdMap] is the old one with the reverted
    form of [a] written under [a]'s [savedFolderId] when [a] was saved, and
    then the merged form of [b] written under [b]'s [savedFolderId] when [b]
    is saved.  So when [a] was saved, its reverted, saved-only form is the
    entry under [a]'s [savedFolderId] if [b] is not saved under that folder
    id, and the merged form of [b] is the entry there if it is. *)
Theorem attachChromeWindow_evicts st a b cw :
  store_ok st →
  windowIdMap st !! ChromeWindow.id cw = Some a →
  let st' := attachChromeWindow st b cw in
  let merged := updateWindow b cw in
  let reverted := removeOpenWindowState a in
  windowIdMap st' = <[ChromeWindow.id cw := merged]> (windowIdMap st) ∧
  windowIdMap st' !! ChromeWindow.id cw = Some merged ∧
  (∀ k, windowIdMap st' !! k = Some a → k = ChromeWindow.id cw ∧ a = merged) ∧
  bookmarkIdMap st' =
    (let closed := if saved a then <[savedFolderId a := reverted]> (bookmarkIdMap st)
                   else bookmarkIdMap st in
     if saved b then <[savedFolderId b := merged]> closed else closed) ∧
  (saved a = true → ¬ (saved b = true ∧ savedFolderId b = savedFolderId a) →
     bookmarkIdMap st' !! savedFolderId a = Some reverted ∧
     open reverted = false ∧ saved reverted = true) ∧
  (saved b = true → savedFolderId b = savedFolderId a →
     bookmarkIdMap st' !! savedFolderId a = Some merged ∧
     open merged = true ∧ saved merged = true).
Proof.
  intros Hok Ha st' merged reverted.
  assert (openWindowId a = ChromeWindow.id cw) as Hkey.
  { destruct Hok as [Ho _]. by destruct (Ho _ _ Ha). }
  destruct (updateWindow_open b cw) as [Hmo Hmk].
  destruct (updateWindow_saved b cw) as [Hms Hmf].
  destruct (removeOpenWindowState_saved a) as [Hrs Hrf].
  pose proof (removeOpenWindowState_open a) as Hro.
  fold merged in Hmo, Hmk, Hms, Hmf. fold reverted in Hrs, Hrf, Hro.
  assert (windowIdMap st' = <[ChromeWindow.id cw := merged]> (windowIdMap st)) as Hwin.
  { subst st'. unfold attachChromeWindow. fold merged.
    rewrite Ha, register_windowIdMap, Hmo, Hmk, close_windowIdMap, Hkey.
    apply insert_delete_eq. }
  assert (bookmarkIdMap st' =
            (let closed := if saved a then <[savedFolderId a := reverted]> (bookmarkIdMap st)
                           else bookmarkIdMap st in
             if saved b then <[savedFolderId b := merged]> closed else closed)) as Hbm.
  { subst st'. unfold attachChromeWindow. fold merged.
    by rewrite Ha, register_bookmarkIdMap, Hms, Hmf, close_bookmarkIdMap. }
  split; [exact Hwin|]. split; [rewrite Hwin; apply lookup_insert_eq|].
  split; [|split; [exact Hbm|split]].
  - intros k Hk. rewrite Hwin in Hk.
    destruct (decide (k = ChromeWindow.id cw)) as [->|Hne].
    + rewrite lookup_insert_eq in Hk. split; [done | congruence].
    + rewrite lookup_insert_ne in Hk by done.
      destruct Hok as [Ho _]. destruct (Ho k a Hk) as [_ Hkey']. congruence.
  - intros Hsaved Hother. rewrite Hbm. simpl. rewrite Hsaved.
    split; [|split; [exact Hro | congruence]].
    destruct (saved b) eqn:Hb; [|apply lookup_insert_eq].
    rewrite lookup_insert_ne; [apply lookup_insert_eq|].
    intros Heq. apply Hother. by split.
  - intros Hb Hshared. rewrite Hbm. simpl. rewrite Hb, Hshared.
    split; [apply lookup_insert_eq|]. split; [exact Hmo | congruence].
Qed.

(** ** Attaching a bookmark folder *)


(** ** Listing the store *)

Lemma elem_of_toArray (m : gmap Z TabWindow) w :
  w ∈ toArray m ↔ ∃ k, m !! k = Some w.
Proof.
  rewrite toArray_values, list_elem_of_fmap. split.
  - intros [[k w'] [-> Hin]]. exists k. by apply elem_of_map_to_list.
  - intros [k Hk]. exists (k, w). split; [done|]. by apply elem_of_map_to_list.
Qed.

(** In an index keyed by a field of its entities, no entity is listed twice. *)
Lemma NoDup_toArray_keyed (key : TabWindow → Z) (m : gmap Z TabWindow) :
  map_Forall (λ k w, key w = k) m → NoDup (toArray m).
Proof.
  intros Hkey. rewrite toArray_values.
  apply NoDup_fmap_2_strong; [|apply NoDup_map_to_list].
  intros [k1 w1] [k2 w2] H1%elem_of_map_to_list H2%elem_of_map_to_list Heq.
  simpl in Heq. subst w2. f_equal.
  rewrite <- (Hkey k1 w1 H1). apply (Hkey k2 w1 H2).
Qed.

Lemma NoDup_getAll st : store_ok st → NoDup (getAll st).
Proof.
  intros [Ho Hs]. unfold getAll, getOpen. apply NoDup_app. split; [|split].
  - apply (NoDup_toArray_keyed openWindowId).
    intros k w Hk. by destruct (Ho k w Hk).
  - intros w [k Hk]%elem_of_toArray [Hclosed _]%list_elem_of_filter.
    destruct (Ho k w Hk) as [Hopen _]. congruence.
  - apply NoDup_filter, (NoDup_toArray_keyed savedFolderId).
    intros k w Hk. by destruct (Hs k w Hk).
Qed.

(** C6: in every reachable store, [getAll] is [getOpen] followed by exactly
    the entities of [bookmarkIdMap] with [open = false]; no entity occurs
    twice in it, and an entity held by both indices occurs exactly once, in
    the [getOpen] part. *)
Theorem getAll_no_duplicates st :
  reachable st →
  getAll st = getOpen st ++ filter (λ w, open w = false) (toArray (bookmarkIdMap st)) ∧
  (∀ w, w ∈ getAll st ↔
        (∃ k, windowIdMap st !! k = Some w) ∨
        ((∃ k, bookmarkIdMap st !! k = Some w) ∧ open w = false)) ∧
  NoDup (getAll st) ∧
  (∀ w k1 k2,
     windowIdMap st !! k1 = Some w → bookmarkIdMap st !! k2 = Some w →
     w ∈ getOpen st ∧
     (w ∉ filter (λ w, open w = false) (toArray (bookmarkIdMap st))) ∧
     count_occ TabWindow_eq_dec (getAll st) w = 1%nat).
Proof.
  intros Hreach. pose proof (reachable_store_ok st Hreach) as Hok.
  pose proof (NoDup_getAll st Hok) as Hnodup.
  split; [reflexivity|]. split; [|split; [exact Hnodup|]].
  - intros w. unfold getAll, getOpen.
    rewrite elem_of_app, list_elem_of_filter, !elem_of_toArray. tauto.
  - intros w k1 k2 H1 H2.
    assert (w ∈ getOpen st) as Hin by (apply elem_of_toArray; eauto).
    split; [exact Hin|]. split.
    + intros [Hclosed _]%list_elem_of_filter.
      destruct Hok as [Ho _]. destruct (Ho k1 w H1) as [Hopen _]. congruence.
    + apply NoDup_ListNoDup in Hnodup.
      apply (proj1 (List.NoDup_count_occ' TabWindow_eq_dec _) Hnodup).
      apply list_elem_of_In. unfold getAll. apply elem_of_app. by left.
Qed.

(** ** Synchronising with the list of Chrome windows *)

(** *** Closure phase *)

Lemma foldl_close_windowIdMap ws : ∀ st k,
  windowIdMap (foldl handleTabWindowClosed st ws) !! k =
    if decide (k ∈ openWindowId <$> ws) then None else windowIdMap st !! k.
Proof.
  induction ws as [|w ws IH]; intros st k.
  - destruct (decide (k ∈ openWindowId <$> [])) as [Hin|_]; [|done].
    by apply elem_of_nil in Hin.
  - change (windowIdMap (foldl handleTabWindowClosed (handleTabWindowClosed st w) ws) !! k
            = if decide (k ∈ openWindowId w :: (openWindowId <$> ws))
              then None else windowIdMap st !! k).
    rewrite IH, close_windowIdMap.
    destruct (decide (k ∈ openWindowId <$> ws)) as [Hin|Hnin].
    + rewrite decide_True; [done | by right].
    + destruct (decide (k = openWindowId w)) as [->|Hne].
      * rewrite decide_True by left. apply lookup_delete_eq.
      * rewrite decide_False by (by apply not_elem_of_cons).
        by rewrite lookup_delete_ne.
Qed.

Lemma foldl_close_bookmark_other ws f : ∀ st,
  (∀ w, w ∈ ws → saved w = true → savedFolderId w ≠ f) →
  bookmarkIdMap (foldl handleTabWindowClosed st ws) !! f = bookmarkIdMap st !! f.
Proof.
  induction ws as [|w ws IH]; intros st Hother; [done|].
  change (bookmarkIdMap (foldl handleTabWindowClosed (handleTabWindowClosed st w) ws) !! f
          = bookmarkIdMap st !! f).
  rewrite IH by (intros w' Hin; apply Hother; by right).
  rewrite close_bookmarkIdMap. destruct (saved w) eqn:Hsaved; [|done].
  apply lookup_insert_ne, Hother; [left | done].
Qed.

Lemma foldl_close_bookmark_unique ws w : ∀ st,
  w ∈ ws → saved w = true →
  (∀ w', w' ∈ ws → saved w' = true → savedFolderId w' = savedFolderId w → w' = w) →
  bookmarkIdMap (foldl handleTabWindowClosed st ws) !! savedFolderId w
    = Some (removeOpenWindowState w).
Proof.
  induction ws as [|x ws IH]; intros st Hin Hsaved Huniq.
  - by apply elem_of_nil in Hin.
  - change (bookmarkIdMap (foldl handleTabWindowClosed (handleTabWindowClosed st x) ws)
              !! savedFolderId w = Some (removeOpenWindowState w)).
    destruct (decide (w ∈ ws)) as [Hws|Hws].
    + apply IH; [done | done |]. intros w' Hw'. apply Huniq. by right.
    + apply elem_of_cons in Hin as [->|Hin]; [|done].
      rewrite foldl_close_bookmark_other.
      * rewrite close_bookmarkIdMap, Hsaved. apply lookup_insert_eq.
      * intros w' Hw' Hs' Hf'. apply Hws.
        rewrite <- (Huniq w'); [done | by right | done | done].
Qed.

Lemma close_bookmark_is_Some st w f :
  is_Some (bookmarkIdMap st !! f) →
  is_Some (bookmarkIdMap (handleTabWindowClosed st w) !! f).
Proof.
  intros Hsome. rewrite close_bookmarkIdMap. destruct (saved w); [|done].
  rewrite lookup_insert. by case_decide.
Qed.

(** *** Sync phase *)

Lemma syncedWindow_open st cw :
  open (syncedWindow st cw) = true ∧ openWindowId (syncedWindow st cw) = ChromeWindow.id cw.
Proof.
  unfold syncedWindow. destruct (windowIdMap st !! ChromeWindow.id cw);
    [apply updateWindow_open | apply makeChromeTabWindow_open].
Qed.

Lemma sync_windowIdMap st cw :
  windowIdMap (syncChromeWindow st cw) =
    <[ChromeWindow.id cw := syncedWindow st cw]> (windowIdMap st).
Proof.
  destruct (syncedWindow_open st cw) as [Hopen Hkey].
  unfold syncChromeWindow. fold (syncedWindow st cw).
  assert (windowIdMap (registerTabWindow st (syncedWindow st cw)) =
            <[ChromeWindow.id cw := syncedWindow st cw]> (windowIdMap st)) as Hreg.
  { by rewrite register_windowIdMap, Hopen, Hkey. }
  by destruct (ChromeWindow.focused cw).
Qed.

Lemma sync_bookmarkIdMap st cw :
  bookmarkIdMap (syncChromeWindow st cw) =
    bookmarkIdMap (registerTabWindow st (syncedWindow st cw)).
Proof.
  unfold syncChromeWindow. fold (syncedWindow st cw).
  by destruct (ChromeWindow.focused cw).
Qed.

Lemma foldl_sync_dom cws : ∀ st,
  dom (windowIdMap (foldl syncChromeWindow st cws)) =
    dom (windowIdMap st) ∪ list_to_set (ChromeWindow.id <$> cws).
Proof.
  induction cws as [|cw cws IH]; intros st.
  - simpl. by rewrite union_empty_r_L.
  - change (dom (windowIdMap (foldl syncChromeWindow (syncChromeWindow st cw) cws))
            = dom (windowIdMap st)
                ∪ list_to_set (ChromeWindow.id cw :: (ChromeWindow.id <$> cws))).
    rewrite IH, sync_windowIdMap, dom_insert_L, list_to_set_cons.
    rewrite (union_comm_L {[ChromeWindow.id cw]} (dom (windowIdMap st))).
    by rewrite union_assoc_L.
Qed.

Lemma foldl_sync_lookup_other cws k : ∀ st,
  k ∉ ChromeWindow.id <$> cws →
  windowIdMap (foldl syncChromeWindow st cws) !! k = windowIdMap st !! k.
Proof.
  induction cws as [|cw cws IH]; intros st Hk; [done|].
  change (windowIdMap (foldl syncChromeWindow (syncChromeWindow st cw) cws) !! k
          = windowIdMap st !! k).
  rewrite fmap_cons in Hk. apply not_elem_of_cons in Hk as [Hne Hk].
  rewrite IH by done. rewrite sync_windowIdMap. by rewrite lookup_insert_ne.
Qed.

Lemma foldl_sync_lookup cws cw : ∀ st,
  NoDup (ChromeWindow.id <$> cws) → cw ∈ cws →
  windowIdMap (foldl syncChromeWindow st cws) !! ChromeWindow.id cw
    = Some (syncedWindow st cw).
Proof.
  induction cws as [|x cws IH]; intros st Hnd Hin.
  - by apply elem_of_nil in Hin.
  - change (windowIdMap (foldl syncChromeWindow (syncChromeWindow st x) cws)
              !! ChromeWindow.id cw = Some (syncedWindow st cw)).
    rewrite fmap_cons in Hnd. apply NoDup_cons in Hnd as [Hx Hnd].
    apply elem_of_cons in Hin as [->|Hin].
    + rewrite foldl_sync_lookup_other by done.
      rewrite sync_windowIdMap. apply lookup_insert_eq.
    + assert (ChromeWindow.id cw ≠ ChromeWindow.id x) as Hne.
      { intros Heq. apply Hx. rewrite <- Heq. apply list_elem_of_fmap. eauto. }
      rewrite IH by done. f_equal. unfold syncedWindow.
      rewrite sync_windowIdMap. by rewrite lookup_insert_ne.
Qed.

Lemma syncedWindow_folder_free st cw f :
  folder_free f (windowIdMap st) →
  saved (syncedWindow st cw) = true → savedFolderId (syncedWindow st cw) ≠ f.
Proof.
  intros Hfree. unfold syncedWindow.
  destruct (windowIdMap st !! ChromeWindow.id cw) as [prev|] eqn:Hprev.
  - destruct (updateWindow_saved prev cw) as [-> ->]. by apply (Hfree _ _ Hprev).
  - by rewrite makeChromeTabWindow_unsaved.
Qed.

Lemma foldl_sync_bookmark cws f : ∀ st,
  folder_free f (windowIdMap st) →
  bookmarkIdMap (foldl syncChromeWindow st cws) !! f = bookmarkIdMap st !! f.
Proof.
  induction cws as [|cw cws IH]; intros st Hfree; [done|].
  change (bookmarkIdMap (foldl syncChromeWindow (syncChromeWindow st cw) cws) !! f
          = bookmarkIdMap st !! f).
  pose proof (syncedWindow_folder_free st cw f Hfree) as Hnew.
  rewrite IH.
  - rewrite sync_bookmarkIdMap, register_bookmarkIdMap.
    destruct (saved (syncedWindow st cw)); [|done].
    by rewrite lookup_insert_ne by (by apply Hnew).
  - unfold folder_free. rewrite sync_windowIdMap.
    by apply map_Forall_insert_2.
Qed.

Lemma sync_bookmark_is_Some st cw f :
  is_Some (bookmarkIdMap st !! f) →
  is_Some (bookmarkIdMap (syncChromeWindow st cw) !! f).
Proof.
  intros Hsome. rewrite sync_bookmarkIdMap, register_bookmarkIdMap.
  destruct (saved (syncedWindow st cw)); [|done].
  rewrite lookup_insert. by case_decide.
Qed.

(** *** The two phases together *)

(** The windows [syncWindowList] closes: the entities of [windowIdMap] whose
    key is not the id of a snapshot. *)
Lemma elem_of_closedWindows st cws w :
  store_ok st →
  w ∈ filter (λ tw, openWindowId tw ∉ (list_to_set (ChromeWindow.id <$> cws) : gset Z))
        (getOpen st)
  ↔ ∃ k, windowIdMap st !! k = Some w ∧ k ∉ ChromeWindow.id <$> cws.
Proof.
  intros [Ho _]. unfold getOpen.
  rewrite list_elem_of_filter, elem_of_list_to_set, elem_of_toArray. split.
  - intros [Hnin [k Hk]]. exists k. split; [done|].
    destruct (Ho k w Hk) as [_ <-]. done.
  - intros [k [Hk Hnin]]. destruct (Ho k w Hk) as [_ Hkey].
    split; [congruence | eauto].
Qed.

(** After the closure phase [windowIdMap] is the old one restricted to the
    snapshot ids. *)
Lemma closure_phase_windowIdMap st cws k :
  store_ok st →
  windowIdMap
    (foldl handleTabWindowClosed st
       (filter (λ tw, openWindowId tw ∉ (list_to_set (ChromeWindow.id <$> cws) : gset Z))
          (getOpen st))) !! k
  = if decide (k ∈ ChromeWindow.id <$> cws) then windowIdMap st !! k else None.
Proof.
  intros Hok. rewrite foldl_close_windowIdMap.
  destruct (decide (k ∈ ChromeWindow.id <$> cws)) as [Hin|Hnin].
  - rewrite decide_False; [done|].
    intros [w [-> Hw]]%list_elem_of_fmap.
    apply elem_of_closedWindows in Hw as [k [Hk Hnin]]; [|done].
    destruct Hok as [Ho _]. destruct (Ho k w Hk) as [_ Hkey]. congruence.
  - case_decide as Hclosed; [done|].
    destruct (windowIdMap st !! k) as [w|] eqn:Hk; [|done].
    exfalso. apply Hclosed. apply list_elem_of_fmap. exists w. split.
    + destruct Hok as [Ho _]. by destruct (Ho k w Hk).
    + apply elem_of_closedWindows; eauto.
Qed.

(** ** Further properties of the store's methods *)

(** The rest of the contract: un-saving clears the saved flag and keeps the
    open fields. *)
Hypothesis removeSavedWindowState_saved : ∀ w,
  saved (removeSavedWindowState w) = false.

Hypothesis removeSavedWindowState_open : ∀ w,
  open (removeSavedWindowState w) = open w ∧
  openWindowId (removeSavedWindowState w) = openWindowId w.

(** *** Batch registration *)

Lemma last_filter_cons {A} (P : A → Prop) `{∀ x, Decision (P x)} (x : A) (l : list A) :
  last (filter P (x :: l)) =
    match last (filter P l) with
    | Some y => Some y
    | None => if decide (P x) then Some x else None
    end.
Proof.
  rewrite filter_cons. destruct (decide (P x)).
  - apply last_cons.
  - by destruct (last (filter P l)).
Qed.

Lemma registerTabWindows_cons st x ws :
  registerTabWindows st (x :: ws) = registerTabWindows (registerTabWindow st x) ws.
Proof. reflexivity. Qed.

Lemma registerTabWindows_windowIdMap ws : ∀ st k,
  windowIdMap (registerTabWindows st ws) !! k =
    match last (filter (λ w, open w = true ∧ openWindowId w = k) ws) with
    | Some w => Some w
    | None => windowIdMap st !! k
    end.
Proof.
  induction ws as [|x ws IH]; intros st k; [done|].
  rewrite registerTabWindows_cons, IH, last_filter_cons.
  destruct (last (filter _ ws)); [done|].
  rewrite register_windowIdMap. case_decide as Hx.
  - destruct Hx as [-> <-]. apply lookup_insert_eq.
  - destruct (open x) eqn:Hopen; [|done].
    apply lookup_insert_ne. intros Heq. apply Hx. by split.
Qed.

Lemma registerTabWindows_bookmarkIdMap ws : ∀ st k,
  bookmarkIdMap (registerTabWindows st ws) !! k =
    match last (filter (λ w, saved w = true ∧ savedFolderId w = k) ws) with
    | Some w => Some w
    | None => bookmarkIdMap st !! k
    end.
Proof.
  induction ws as [|x ws IH]; intros st k; [done|].
  rewrite registerTabWindows_cons, IH, last_filter_cons.
  destruct (last (filter _ ws)); [done|].
  rewrite register_bookmarkIdMap. case_decide as Hx.
  - destruct Hx as [-> <-]. apply lookup_insert_eq.
  - destruct (saved x) eqn:Hsaved; [|done].
    apply lookup_insert_ne. intros Heq. apply Hx. by split.
Qed.

(** X1: after [registerTabWindows], each key of either index holds the last
    entity of the list that is registered under that key, and keeps its old
    entry when the list has none: later entities overwrite earlier ones. *)
Theorem registerTabWindows_last_wins st ws k :
  getTabWindowByChromeId (registerTabWindows st ws) k =
    match last (filter (λ w, open w = true ∧ openWindowId w = k) ws) with
    | Some w => Some w
    | None => getTabWindowByChromeId st k
    end ∧
  bookmarkIdMap (registerTabWindows st ws) !! k =
    match last (filter (λ w, saved w = true ∧ savedFolderId w = k) ws) with
    | Some w => Some w
    | None => bookmarkIdMap st !! k
    end.
Proof.
  split; [apply registerTabWindows_windowIdMap | apply registerTabWindows_bookmarkIdMap].
Qed.

(** X2: registrations of two entities that share no index key commute. *)
Theorem registerTabWindow_commute st a b :
  (open a = true → open b = true → openWindowId a ≠ openWindowId b) →
  (saved a = true → saved b = true → savedFolderId a ≠ savedFolderId b) →
  registerTabWindow (registerTabWindow st a) b =
  registerTabWindow (registerTabWindow st b) a.
Proof.
  intros Hopen Hsaved.
  unfold registerTabWindow, set_bookmarkIdMap, set_windowIdMap; simpl.
  f_equal.
  - destruct (open a) eqn:Ha, (open b) eqn:Hb; try reflexivity.
    apply insert_insert_ne. intros Heq. by apply Hopen.
  - destruct (saved a) eqn:Ha, (saved b) eqn:Hb; try reflexivity.
    apply insert_insert_ne. intros Heq. by apply Hsaved.
Qed.

(** *** Closing *)

(** X3: closing the same window twice is the same as closing it once. *)
Theorem handleTabWindowClosed_idempotent st w :
  handleTabWindowClosed (handleTabWindowClosed st w) w = handleTabWindowClosed st w.
Proof.
  destruct (removeOpenWindowState_saved w) as [Hrs Hrf].
  pose proof (removeOpenWindowState_open w) as Hro.
  unfold handleTabWindowClosed, registerTabWindow, set_bookmarkIdMap, set_windowIdMap.
  simpl. rewrite Hro, Hrs, Hrf. f_equal.
  - apply delete_delete_eq.
  - destruct (saved w); [apply insert_insert_eq | done].
Qed.

(** X4: closing a window that is not saved and whose id is not a key of
    [windowIdMap] leaves the store as it is (deleting an absent key does
    nothing, and the reverted entity carries no flag). *)
Theorem handleTabWindowClosed_absent st w :
  getTabWindowByChromeId st (openWindowId w) = None →
  saved w = false →
  handleTabWindowClosed st w = st.
Proof.
  intros Habsent Hsaved.
  destruct (removeOpenWindowState_saved w) as [Hrs _].
  pose proof (removeOpenWindowState_open w) as Hro.
  unfold handleTabWindowClosed, registerTabWindow, set_bookmarkIdMap, set_windowIdMap.
  simpl. rewrite Hro, Hrs, Hsaved, delete_id by exact Habsent. by destruct st.
Qed.

(** X5: [handleTabWindowClosed] does not touch [currentWindowId]: after the
    focused window is closed, [currentWindowId] still names it and no longer
    refers to an open window. *)
Theorem handleTabWindowClosed_dangling_focus st w :
  currentWindowId st = openWindowId w →
  currentWindowId (handleTabWindowClosed st w) = openWindowId w ∧
  getTabWindowByChromeId (handleTabWindowClosed st w)
    (currentWindowId (handleTabWindowClosed st w)) = None.
Proof.
  intros Hfocus. rewrite close_currentWindowId, Hfocus. split; [done|].
  unfold getTabWindowByChromeId. rewrite close_windowIdMap. apply lookup_delete_eq.
Qed.

(** *** Un-managing *)

(** X6: [unmanageWindow] deletes the window's [savedFolderId] from
    [bookmarkIdMap] and writes nothing else there, so a saved window counted
    before is no longer counted; when the window is open its un-saved form
    replaces it in [windowIdMap]. *)
Theorem unmanageWindow_effect st w :
  let st' := unmanageWindow st w in
  bookmarkIdMap st' = delete (savedFolderId w) (bookmarkIdMap st) ∧
  windowIdMap st' =
    (if open w then <[openWindowId w := removeSavedWindowState w]> (windowIdMap st)
     else windowIdMap st) ∧
  (is_Some (bookmarkIdMap st !! savedFolderId w) →
     countSavedWindows st = S (countSavedWindows st')) ∧
  (bookmarkIdMap st !! savedFolderId w = None →
     countSavedWindows st' = countSavedWindows st).
Proof.
  intros st'.
  assert (bookmarkIdMap st' = delete (savedFolderId w) (bookmarkIdMap st)) as Hbm.
  { subst st'. unfold unmanageWindow. rewrite register_bookmarkIdMap.
    by rewrite removeSavedWindowState_saved. }
  split; [exact Hbm|]. split; [|split].
  - subst st'. unfold unmanageWindow. rewrite register_windowIdMap.
    by destruct (removeSavedWindowState_open w) as [-> ->].
  - intros Hsome. unfold countSavedWindows. rewrite Hbm.
    rewrite map_size_delete_Some by done.
    destruct Hsome as [x Hx].
    assert (size (bookmarkIdMap st) ≠ 0%nat) as Hne.
    { intros Hz. apply map_size_empty_inv in Hz. rewrite Hz in Hx.
      by rewrite lookup_empty in Hx. }
    lia.
  - intros Hnone. unfold countSavedWindows. rewrite Hbm.
    by apply map_size_delete_None.
Qed.

(** X7: attaching a folder whose id is not yet a key of [bookmarkIdMap] and
    then un-managing the merged window restores [bookmarkIdMap]; the window
    stays open, in its un-saved form. *)
Theorem attachBookmarkFolder_unmanage_roundtrip st f cw :
  bookmarkIdMap st !! BookmarkFolder.id f = None →
  let merged := updateWindow (makeFolderTabWindow f) cw in
  let st' := unmanageWindow (attachBookmarkFolder st f cw) merged in
  bookmarkIdMap st' = bookmarkIdMap st ∧
  getTabWindowByChromeId st' (ChromeWindow.id cw) = Some (removeSavedWindowState merged) ∧
  open (removeSavedWindowState merged) = true ∧
  saved (removeSavedWindowState merged) = false.
Proof.
  intros Hfresh merged st'.
  destruct (updateWindow_open (makeFolderTabWindow f) cw) as [Hmo Hmk].
  destruct (updateWindow_saved (makeFolderTabWindow f) cw) as [Hms Hmf].
  destruct (makeFolderTabWindow_saved f) as [Hfs Hff].
  rewrite Hfs in Hms. rewrite Hff in Hmf.
  destruct (removeSavedWindowState_open (updateWindow (makeFolderTabWindow f) cw))
    as [Huo Huk].
  pose proof (removeSavedWindowState_saved (updateWindow (makeFolderTabWindow f) cw))
    as Hus.
  fold merged in Hmo, Hmk, Hms, Hmf, Huo, Huk, Hus.
  split; [|split; [|split]].
  - subst st'. unfold unmanageWindow. rewrite register_bookmarkIdMap, Hus.
    unfold removeBookmarkIdMapEntry, attachBookmarkFolder. fold merged. simpl.
    rewrite Hms, Hmf, delete_insert_eq. by apply delete_id.
  - subst st'. unfold getTabWindowByChromeId, unmanageWindow.
    rewrite register_windowIdMap, Huo, Hmo, Huk, Hmk. apply lookup_insert_eq.
  - congruence.
  - exact Hus.
Qed.

(** *** What the methods never remove *)

Lemma register_grows_windowIdMap st w :
  dom (windowIdMap st) ⊆ dom (windowIdMap (registerTabWindow st w)).
Proof.
  rewrite register_windowIdMap. destruct (open w); [apply dom_insert_subseteq | done].
Qed.

Lemma register_grows_bookmarkIdMap st w :
  dom (bookmarkIdMap st) ⊆ dom (bookmarkIdMap (registerTabWindow st w)).
Proof.
  rewrite register_bookmarkIdMap. destruct (saved w); [apply dom_insert_subseteq | done].
Qed.

Lemma close_grows_bookmarkIdMap st w :
  dom (bookmarkIdMap st) ⊆ dom (bookmarkIdMap (handleTabWindowClosed st w)).
Proof.
  unfold handleTabWindowClosed.
  apply (register_grows_bookmarkIdMap
           (set_windowIdMap (delete (openWindowId w) (windowIdMap st)) st)).
Qed.

Lemma sync_grows_windowIdMap st cw :
  dom (windowIdMap st) ⊆ dom (windowIdMap (syncChromeWindow st cw)).
Proof.
  unfold syncChromeWindow.
  destruct (ChromeWindow.focused cw); apply register_grows_windowIdMap.
Qed.

Lemma sync_grows_bookmarkIdMap st cw :
  dom (bookmarkIdMap st) ⊆ dom (bookmarkIdMap (syncChromeWindow st cw)).
Proof.
  unfold syncChromeWindow.
  destruct (ChromeWindow.focused cw); apply register_grows_bookmarkIdMap.
Qed.

(** A fold of steps that only add keys only adds keys. *)
Lemma foldl_grows {B} (proj : TabManagerState → gmap Z TabWindow)
    (f : TabManagerState → B → TabManagerState) (l : list B) (st : TabManagerState) :
  (∀ s b, dom (proj s) ⊆ dom (proj (f s b))) →
  dom (proj st) ⊆ dom (proj (foldl f st l)).
Proof.
  intros Hstep.
  apply (foldl_invariant (λ s, dom (proj st) ⊆ dom (proj s))); [|done].
  intros s b Hs. etrans; [exact Hs | apply Hstep].
Qed.

Lemma registerTabWindows_grows_bookmarkIdMap st ws :
  dom (bookmarkIdMap st) ⊆ dom (bookmarkIdMap (registerTabWindows st ws)).
Proof. apply (foldl_grows bookmarkIdMap), register_grows_bookmarkIdMap. Qed.

Lemma registerTabWindows_grows_windowIdMap st ws :
  dom (windowIdMap st) ⊆ dom (windowIdMap (registerTabWindows st ws)).
Proof. apply (foldl_grows windowIdMap), register_grows_windowIdMap. Qed.

Lemma attach_grows_bookmarkIdMap st w cw :
  dom (bookmarkIdMap st) ⊆ dom (bookmarkIdMap (attachChromeWindow st w cw)).
Proof.
  unfold attachChromeWindow.
  etrans; [|apply register_grows_bookmarkIdMap].
  destruct (windowIdMap st !! ChromeWindow.id cw);
    [apply close_grows_bookmarkIdMap | done].
Qed.

Lemma syncWindowList_grows_bookmarkIdMap st cws :
  dom (bookmarkIdMap st) ⊆ dom (bookmarkIdMap (syncWindowList st cws)).
Proof.
  unfold syncWindowList.
  etrans; [|apply (foldl_grows bookmarkIdMap), sync_grows_bookmarkIdMap].
  apply (foldl_grows bookmarkIdMap), close_grows_bookmarkIdMap.
Qed.

Lemma unmanage_grows_windowIdMap st w :
  dom (windowIdMap st) ⊆ dom (windowIdMap (unmanageWindow st w)).
Proof.
  unfold unmanageWindow.
  apply (register_grows_windowIdMap (removeBookmarkIdMapEntry st w)).
Qed.

(** The methods that delete from [bookmarkIdMap]. *)
Definition deletesSaved (op : StoreOp) : bool :=
  match op with
  | RemoveBookmarkIdMapEntry _ | UnmanageWindow _ => true
  | _ => false
  end.

(** The methods that delete from [windowIdMap], themselves or through
    [handleTabWindowClosed]. *)
Definition deletesOpen (op : StoreOp) : bool :=
  match op with
  | HandleTabWindowClosed _ | AttachChromeWindow _ _ | SyncWindowList _ => true
  | _ => false
  end.

(** The methods that write [currentWindowId]. *)
Definition writesFocus (op : StoreOp) : bool :=
  match op with
  | SyncChromeWindow _ | SyncWindowList _ | SetCurrentWindow _ => true
  | _ => false
  end.

(** X8: no method other than [removeBookmarkIdMapEntry] and [unmanageWindow]
    removes a key from [bookmarkIdMap], and no method other than
    [handleTabWindowClosed], [attachChromeWindow] and [syncWindowList] removes
    a key from [windowIdMap], whatever the entity transforms return. *)
Theorem applyOp_never_removes st op :
  (deletesSaved op = false →
     dom (bookmarkIdMap st) ⊆ dom (bookmarkIdMap (applyOp st op))) ∧
  (deletesOpen op = false →
     dom (windowIdMap st) ⊆ dom (windowIdMap (applyOp st op))).
Proof.
  split; intros Hop; destruct op; try discriminate Hop; simpl.
  - apply register_grows_bookmarkIdMap.
  - apply registerTabWindows_grows_bookmarkIdMap.
  - apply close_grows_bookmarkIdMap.
  - apply register_grows_bookmarkIdMap.
  - apply register_grows_bookmarkIdMap.
  - apply register_grows_bookmarkIdMap.
  - apply register_grows_bookmarkIdMap.
  - apply register_grows_bookmarkIdMap.
  - apply attach_grows_bookmarkIdMap.
  - apply sync_grows_bookmarkIdMap.
  - apply syncWindowList_grows_bookmarkIdMap.
  - reflexivity.
  - apply register_grows_bookmarkIdMap.
  - apply register_grows_windowIdMap.
  - apply registerTabWindows_grows_windowIdMap.
  - apply register_grows_windowIdMap.
  - apply register_grows_windowIdMap.
  - apply register_grows_windowIdMap.
  - apply register_grows_windowIdMap.
  - apply register_grows_windowIdMap.
  - apply sync_grows_windowIdMap.
  - reflexivity.
  - reflexivity.
  - apply unmanage_grows_windowIdMap.
  - apply register_grows_windowIdMap.
Qed.

(** X9: only [syncChromeWindow], [syncWindowList] and [setCurrentWindow]
    change [currentWindowId]. *)
Theorem applyOp_focus_frame st op :
  writesFocus op = false →
  currentWindowId (applyOp st op) = currentWindowId st.
Proof.
  intros Hop. destruct op; try discriminate Hop; try reflexivity.
  - unfold applyOp, registerTabWindows.
    apply foldl_preserves, register_currentWindowId.
  - unfold applyOp, attachChromeWindow.
    by destruct (windowIdMap st !! ChromeWindow.id chromeWindow).
Qed.

(** *** Synchronising one window *)

(** X10: [syncChromeWindow] leaves every other open window as it is and
    removes nothing: the number of open windows grows by one when the
    snapshot's id was unknown and is unchanged otherwise. *)
Theorem syncChromeWindow_open_count st cw :
  getTabWindowByChromeId (syncChromeWindow st cw) (ChromeWindow.id cw)
    = Some (match getTabWindowByChromeId st (ChromeWindow.id cw) with
            | Some prev => updateWindow prev cw
            | None => makeChromeTabWindow cw
            end) ∧
  (∀ k, k ≠ ChromeWindow.id cw →
        getTabWindowByChromeId (syncChromeWindow st cw) k = getTabWindowByChromeId st k) ∧
  countOpenWindows (syncChromeWindow st cw) =
    match getTabWindowByChromeId st (ChromeWindow.id cw) with
    | Some _ => countOpenWindows st
    | None => S (countOpenWindows st)
    end.
Proof.
  unfold getTabWindowByChromeId, countOpenWindows. rewrite sync_windowIdMap.
  split; [apply lookup_insert_eq|]. split.
  - intros k Hne. by apply lookup_insert_ne.
  - rewrite map_size_insert.
    by destruct (windowIdMap st !! ChromeWindow.id cw).
Qed.

(** *** Synchronising the whole list *)

Lemma syncWindowList_dom st cws :
  store_ok st →
  dom (windowIdMap (syncWindowList st cws)) = list_to_set (ChromeWindow.id <$> cws).
Proof.
  intros Hok. unfold syncWindowList. rewrite foldl_sync_dom.
  apply set_eq. intros k. rewrite elem_of_union, elem_of_dom.
  rewrite closure_phase_windowIdMap by done.
  rewrite elem_of_list_to_set. case_decide as Hk.
  - tauto.
  - split; [intros [[? ?]|?]; done | tauto].
Qed.

Lemma foldl_close_bookmark_is_Some ws w st :
  w ∈ ws → saved w = true →
  is_Some (bookmarkIdMap (foldl handleTabWindowClosed st ws) !! savedFolderId w).
Proof.
  intros Hw Hsaved.
  destruct (list_elem_of_split _ _ Hw) as (l1 & l2 & ->).
  rewrite foldl_app.
  change (foldl handleTabWindowClosed (foldl handleTabWindowClosed st l1) (w :: l2))
    with (foldl handleTabWindowClosed
            (handleTabWindowClosed (foldl handleTabWindowClosed st l1) w) l2).
  apply (foldl_invariant (λ s, is_Some (bookmarkIdMap s !! savedFolderId w)));
    [intros; by apply close_bookmark_is_Some|].
  rewrite close_bookmarkIdMap, Hsaved, lookup_insert_eq. eauto.
Qed.

Lemma syncWindowList_unfold st cws :
  syncWindowList st cws =
    foldl syncChromeWindow
      (foldl handleTabWindowClosed st
         (filter (λ tw, openWindowId tw ∉ (list_to_set (ChromeWindow.id <$> cws) : gset Z))
            (getOpen st))) cws.
Proof. reflexivity. Qed.

Lemma foldl_nil {A B} (f : A → B → A) (a : A) : foldl f a [] = a.
Proof. reflexivity. Qed.

(** X11: synchronising a well-formed store with the empty list closes every
    open window: [windowIdMap] becomes empty, [currentWindowId] is kept, and
    every window that was open and saved has an entry under its
    [savedFolderId] in [bookmarkIdMap]. *)
Theorem syncWindowList_nil st :
  store_ok st →
  windowIdMap (syncWindowList st []) = ∅ ∧
  countOpenWindows (syncWindowList st []) = 0%nat ∧
  currentWindowId (syncWindowList st []) = currentWindowId st ∧
  (∀ k w, getTabWindowByChromeId st k = Some w → saved w = true →
          is_Some (bookmarkIdMap (syncWindowList st []) !! savedFolderId w)).
Proof.
  intros Hok.
  assert (windowIdMap (syncWindowList st []) = ∅) as Hempty.
  { apply map_eq. intros k. rewrite lookup_empty, (syncWindowList_unfold st []), foldl_nil.
    rewrite (closure_phase_windowIdMap st [] k Hok).
    case_decide as Hk; [by apply elem_of_nil in Hk | done]. }
  split; [exact Hempty|]. split; [|split].
  - unfold countOpenWindows. rewrite Hempty. apply map_size_empty.
  - rewrite (syncWindowList_unfold st []), foldl_nil.
    apply foldl_preserves, close_currentWindowId.
  - intros k w Hk Hsaved. rewrite (syncWindowList_unfold st []), foldl_nil.
    apply foldl_close_bookmark_is_Some; [|done].
    apply (elem_of_closedWindows st [] w Hok). exists k. split; [done|].
    apply not_elem_of_nil.
Qed.

(** X12: a second sync with the same list closes nothing: on a well-formed
    store it is the fold of [syncChromeWindow] alone. *)
Theorem syncWindowList_again st cws :
  store_ok st →
  syncWindowList (syncWindowList st cws) cws =
    foldl syncChromeWindow (syncWindowList st cws) cws.
Proof.
  intros Hok.
  assert (store_ok (syncWindowList st cws)) as Hok'
    by (by apply store_ok_syncWindowList).
  pose proof (syncWindowList_dom st cws Hok) as Hdom.
  set (st1 := syncWindowList st cws) in *.
  assert (filter (λ tw, openWindowId tw ∉ (list_to_set (ChromeWindow.id <$> cws) : gset Z))
            (getOpen st1) = []) as Hnone.
  { apply elem_of_nil_inv. intros w Hw.
    apply elem_of_closedWindows in Hw as [k [Hk Hnin]]; [|done].
    apply Hnin. apply (elem_of_list_to_set (C:=gset Z)).
    rewrite <- Hdom. apply elem_of_dom. eauto. }
  unfold syncWindowList at 1. by rewrite Hnone.
Qed.

(** *** Attaching *)

(** X13: on a well-formed store, [attachChromeWindow] changes [windowIdMap]
    at the snapshot's id only, where it puts the merged entity: evicting the
    occupant touches no other open window. *)
Theorem attachChromeWindow_windowIdMap st b cw :
  store_ok st →
  windowIdMap (attachChromeWindow st b cw) =
    <[ChromeWindow.id cw := updateWindow b cw]> (windowIdMap st) ∧
  countOpenWindows (attachChromeWindow st b cw) =
    match getTabWindowByChromeId st (ChromeWindow.id cw) with
    | Some _ => countOpenWindows st
    | None => S (countOpenWindows st)
    end.
Proof.
  intros [Ho _].
  assert (windowIdMap (attachChromeWindow st b cw) =
            <[ChromeWindow.id cw := updateWindow b cw]> (windowIdMap st)) as Hmap.
  { unfold attachChromeWindow. rewrite register_windowIdMap.
    destruct (updateWindow_open b cw) as [-> ->].
    destruct (windowIdMap st !! ChromeWindow.id cw) as [a|] eqn:Ha; [|done].
    rewrite close_windowIdMap. destruct (Ho _ _ Ha) as [_ ->].
    apply insert_delete_eq. }
  split; [exact Hmap|].
  unfold countOpenWindows, getTabWindowByChromeId. rewrite Hmap, map_size_insert.
  by destruct (windowIdMap st !! ChromeWindow.id cw).
Qed.

(** *** Tab events *)

(** [u] carries the flags and index keys of [w]. *)
Definition same_keys (w u : TabWindow) : Prop :=
  open u = open w ∧ openWindowId u = openWindowId w ∧
  saved u = saved w ∧ savedFolderId u = savedFolderId w.

(** [w] is the entry of every index its flags put it in. *)
Definition registered (st : TabManagerState) (w : TabWindow) : Prop :=
  (open w = true → windowIdMap st !! openWindowId w = Some w) ∧
  (saved w = true → bookmarkIdMap st !! savedFolderId w = Some w).

(** [st'] is [st] with the registered entity [w] replaced by [u] in place:
    same keys in both indices, every other entry untouched. *)
Definition replaced_in_place (st st' : TabManagerState) (w u : TabWindow) : Prop :=
  registered st' u ∧
  dom (windowIdMap st') = dom (windowIdMap st) ∧
  dom (bookmarkIdMap st') = dom (bookmarkIdMap st) ∧
  (∀ k, k ≠ openWindowId w → windowIdMap st' !! k = windowIdMap st !! k) ∧
  (∀ k, k ≠ savedFolderId w → bookmarkIdMap st' !! k = bookmarkIdMap st !! k).

Lemma dom_insert_present (m : gmap Z TabWindow) k w u :
  m !! k = Some w → dom (<[k := u]> m) = dom m.
Proof.
  intros Hk. apply set_eq. intros j.
  rewrite !elem_of_dom, lookup_insert. case_decide as Hj; [|done].
  subst j. rewrite Hk. split; eauto.
Qed.

Lemma register_replaces_in_place st w u :
  same_keys w u → registered st w →
  replaced_in_place st (registerTabWindow st u) w u.
Proof.
  intros (Ho & Hk & Hs & Hf) [Hopen Hsaved].
  unfold replaced_in_place, registered.
  rewrite register_windowIdMap, register_bookmarkIdMap, Ho, Hk, Hs, Hf.
  split; [split|split; [|split; [|split]]].
  - intros Hw. rewrite Hw. apply lookup_insert_eq.
  - intros Hw. rewrite Hw. apply lookup_insert_eq.
  - destruct (open w) eqn:Hw; [|done]. by apply (dom_insert_present _ _ w), Hopen.
  - destruct (saved w) eqn:Hw; [|done]. by apply (dom_insert_present _ _ w), Hsaved.
  - intros k Hne. destruct (open w); [|done]. by apply lookup_insert_ne.
  - intros k Hne. destruct (saved w); [|done]. by apply lookup_insert_ne.
Qed.

(** X14: each tab handler whose transform keeps the window's flags and index
    keys replaces a registered window in place: the updated entity is the
    entry of every index the window was in, both key sets are unchanged, and
    no other entry is touched. *)
Theorem tab_handlers_replace_in_place st w :
  registered st w →
  (∀ tid, same_keys w (closeTab w tid) →
          replaced_in_place st (handleTabClosed st w tid) w (closeTab w tid)) ∧
  (∀ ti node, same_keys w (saveTab w ti node) →
              replaced_in_place st (handleTabSaved st w ti node) w (saveTab w ti node)) ∧
  (∀ ti, same_keys w (unsaveTab w ti) →
         replaced_in_place st (handleTabUnsaved st w ti) w (unsaveTab w ti)) ∧
  (∀ tid, same_keys w (setActiveTab w tid) →
          replaced_in_place st (handleTabActivated st w tid) w (setActiveTab w tid)) ∧
  (∀ tab, same_keys w (updateTabItem w tab) →
          replaced_in_place st (handleTabUpdated st w tab) w (updateTabItem w tab)).
Proof.
  intros Hreg.
  split; [|split; [|split; [|split]]]; intros;
    unfold handleTabClosed, handleTabSaved, handleTabUnsaved, handleTabActivated,
      handleTabUpdated;
    by apply register_replaces_in_place.
Qed.

(** *** Keys of reachable stores *)

(** X15: in every reachable store an entity found under a window id carries
    that id as its [openWindowId], and an entity found under a folder id
    carries that id as its [savedFolderId]. *)
Theorem reachable_index_keys st k w :
  reachable st →
  (getTabWindowByChromeId st k = Some w → openWindowId w = k) ∧
  (bookmarkIdMap st !! k = Some w → savedFolderId w = k).
Proof.
  intros Hreach. destruct (reachable_store_ok st Hreach) as [Ho Hs].
  split; intros Hk.
  - by destruct (Ho k w Hk).
  - by destruct (Hs k w Hk).
Qed.

(** *** Counts and listings *)

Lemma length_toArray (m : gmap Z TabWindow) : length (toArray m) = size m.
Proof. by rewrite toArray_values, length_fmap, length_map_to_list. Qed.

(** X16: [countOpenWindows] is the length of [getOpen], [countSavedWindows]
    the length of the listing of [bookmarkIdMap], and [getAll] has at least
    as many entries as there are open windows and at most as many as open and
    saved windows together. *)
Theorem counts_match_listings st :
  countOpenWindows st = length (getOpen st) ∧
  countSavedWindows st = length (toArray (bookmarkIdMap st)) ∧
  (countOpenWindows st ≤ length (getAll st))%nat ∧
  (length (getAll st) ≤ countOpenWindows st + countSavedWindows st)%nat.
Proof.
  unfold countOpenWindows, countSavedWindows, getAll, getOpen.
  rewrite length_app, !length_toArray.
  pose proof (length_filter (λ w, open w = false) (toArray (bookmarkIdMap st))) as Hle.
  rewrite length_toArray in Hle. repeat split; lia.
Qed.

(** X17: [getTabWindowsByType] lists exactly the entities of [windowIdMap]
    with the given type, in the order of [getOpen]; in a well-formed store it
    lists no window twice, and windows listed for different types differ. *)
Theorem getTabWindowsByType_spec st wt :
  (∀ w, w ∈ getTabWindowsByType st wt ↔
        (∃ k, getTabWindowByChromeId st k = Some w) ∧ windowType w = wt) ∧
  getTabWindowsByType st wt `sublist_of` getOpen st ∧
  (length (getTabWindowsByType st wt) ≤ countOpenWindows st)%nat ∧
  (store_ok st → NoDup (getTabWindowsByType st wt)) ∧
  (∀ wt' w, wt' ≠ wt → w ∈ getTabWindowsByType st wt → w ∉ getTabWindowsByType st wt').
Proof.
  unfold getTabWindowsByType, getTabWindowByChromeId. split; [|split; [|split; [|split]]].
  - intros w. unfold getOpen. rewrite list_elem_of_filter, elem_of_toArray.
    split; intros [? ?]; by split.
  - apply sublist_filter.
  - unfold countOpenWindows. rewrite <- length_toArray. apply length_filter.
  - intros [Ho _]. apply NoDup_filter. unfold getOpen.
    apply (NoDup_toArray_keyed openWindowId).
    intros k w Hk. by destruct (Ho k w Hk).
  - intros wt' w Hne [Hwt _]%list_elem_of_filter [Hwt' _]%list_elem_of_filter.
    apply Hne. by rewrite <- Hwt, <- Hwt'.
Qed.

(** *** The open index after a sync depends on the open index only *)

Lemma sync_windowIdMap_ext s1 s2 cw :
  windowIdMap s1 = windowIdMap s2 →
  windowIdMap (syncChromeWindow s1 cw) = windowIdMap (syncChromeWindow s2 cw).
Proof.
  intros Heq.
  assert (∀ s, windowIdMap (syncChromeWindow s cw) =
               windowIdMap (registerTabWindow s (syncedWindow s cw))) as Hreg.
  { intros s. unfold syncChromeWindow. fold (syncedWindow s cw).
    by destruct (ChromeWindow.focused cw). }
  rewrite !Hreg, !register_windowIdMap. unfold syncedWindow. by rewrite Heq.
Qed.

Lemma foldl_sync_windowIdMap_ext cws : ∀ s1 s2,
  windowIdMap s1 = windowIdMap s2 →
  windowIdMap (foldl syncChromeWindow s1 cws) = windowIdMap (foldl syncChromeWindow s2 cws).
Proof.
  induction cws as [|cw cws IH]; intros s1 s2 Heq; [done|].
  change (windowIdMap (foldl syncChromeWindow (syncChromeWindow s1 cw) cws)
          = windowIdMap (foldl syncChromeWindow (syncChromeWindow s2 cw) cws)).
  by apply IH, sync_windowIdMap_ext.
Qed.

Lemma syncWindowList_currentWindowId st cws :
  currentWindowId (syncWindowList st cws) = lastFocused (currentWindowId st) cws.
Proof.
  unfold syncWindowList. rewrite foldl_sync_currentWindowId. f_equal.
  apply foldl_preserves, close_currentWindowId.
Qed.

(** *** The whole of a sync *)

Lemma mergeAll_cons prev cw cws :
  mergeAll prev (cw :: cws) = mergeAll (Some (mergeSnapshot prev cw)) cws.
Proof. reflexivity. Qed.

Lemma foldl_sync_cons st cw cws :
  foldl syncChromeWindow st (cw :: cws) = foldl syncChromeWindow (syncChromeWindow st cw) cws.
Proof. reflexivity. Qed.

Lemma foldl_close_cons st w ws :
  foldl handleTabWindowClosed st (w :: ws) =
    foldl handleTabWindowClosed (handleTabWindowClosed st w) ws.
Proof. reflexivity. Qed.

Lemma syncedWindow_mergeSnapshot st cw :
  syncedWindow st cw = mergeSnapshot (windowIdMap st !! ChromeWindow.id cw) cw.
Proof. reflexivity. Qed.

(** Every key of [windowIdMap] after a fold of [syncChromeWindow]. *)
Lemma foldl_sync_lookup_all cws : ∀ st k,
  windowIdMap (foldl syncChromeWindow st cws) !! k =
    mergeAll (windowIdMap st !! k) (filter (λ cw, ChromeWindow.id cw = k) cws).
Proof.
  induction cws as [|x cws IH]; intros st k; [done|].
  rewrite foldl_sync_cons, IH, sync_windowIdMap, filter_cons.
  case_decide as Hx.
  - subst k. by rewrite lookup_insert_eq, mergeAll_cons, syncedWindow_mergeSnapshot.
  - by rewrite lookup_insert_ne.
Qed.

(** The entity registered for the snapshot at position [i]. *)
Lemma syncTrace_lookup cws : ∀ st i cw,
  cws !! i = Some cw →
  syncTrace st cws !! i =
    mergeAll (windowIdMap st !! ChromeWindow.id cw)
      (filter (λ c, ChromeWindow.id c = ChromeWindow.id cw) (take (S i) cws)).
Proof.
  induction cws as [|x cws IH]; intros st i cw Hi; [done|].
  destruct i as [|i].
  - injection Hi as ->. simpl syncTrace.
    change (take 1 (cw :: cws)) with (cw :: take 0 cws). rewrite take_0.
    rewrite filter_cons, decide_True by done.
    by rewrite filter_nil, mergeAll_cons, syncedWindow_mergeSnapshot.
  - simpl in Hi. simpl syncTrace.
    change (syncTrace (syncChromeWindow st x) cws !! i =
            mergeAll (windowIdMap st !! ChromeWindow.id cw)
              (filter (λ c, ChromeWindow.id c = ChromeWindow.id cw)
                 (x :: take (S i) cws))).
    rewrite (IH _ _ _ Hi), sync_windowIdMap, filter_cons.
    case_decide as Hx.
    + rewrite Hx. by rewrite lookup_insert_eq, mergeAll_cons, syncedWindow_mergeSnapshot, Hx.
    + by rewrite lookup_insert_ne.
Qed.

(** Last write wins under every folder id, in the sync phase ... *)
Lemma foldl_sync_bookmark_last cws : ∀ st f,
  bookmarkIdMap (foldl syncChromeWindow st cws) !! f =
    match last (filter (λ e, saved e = true ∧ savedFolderId e = f) (syncTrace st cws)) with
    | Some e => Some e
    | None => bookmarkIdMap st !! f
    end.
Proof.
  induction cws as [|x cws IH]; intros st f; [done|].
  rewrite foldl_sync_cons, IH. simpl syncTrace. rewrite last_filter_cons.
  destruct (last (filter _ (syncTrace _ cws))); [done|].
  rewrite sync_bookmarkIdMap, register_bookmarkIdMap. case_decide as Hx.
  - destruct Hx as [-> <-]. apply lookup_insert_eq.
  - destruct (saved (syncedWindow st x)) eqn:Hsaved; [|done].
    apply lookup_insert_ne. intros Heq. apply Hx. by split.
Qed.

(** ... and in the closure phase. *)
Lemma foldl_close_bookmark_last ws : ∀ st f,
  bookmarkIdMap (foldl handleTabWindowClosed st ws) !! f =
    match last (filter (λ w, saved w = true ∧ savedFolderId w = f) ws) with
    | Some w => Some (removeOpenWindowState w)
    | None => bookmarkIdMap st !! f
    end.
Proof.
  induction ws as [|x ws IH]; intros st f; [done|].
  rewrite foldl_close_cons, IH, last_filter_cons.
  destruct (last (filter _ ws)); [done|].
  rewrite close_bookmarkIdMap. case_decide as Hx.
  - destruct Hx as [-> <-]. apply lookup_insert_eq.
  - destruct (saved x) eqn:Hsaved; [|done].
    apply lookup_insert_ne. intros Heq. apply Hx. by split.
Qed.

(** C2 (amended): on a well-formed store, [syncWindowList] is the closure
    phase followed by the fold of [syncChromeWindow] over the list in list
    order; the windows closed are the entities of [windowIdMap] whose key is
    no snapshot id.  The keys of the resulting [windowIdMap] are exactly the
    snapshot ids, and each holds what the snapshots with that id, in list
    order, make of the entity that was there: the first merges into it or
    creates a fresh one, each later one merges into the result (with distinct
    ids: the merge of the previous entity, or a fresh entity).  Under every
    folder id, [bookmarkIdMap] holds the last write: the last entity saved
    under that id that the sync phase registered, else the reverted form of
    the last closed window saved under it, else the old entry.  So a closed
    entity that was saved leaves a saved entry under its [savedFolderId], and
    that entry is its reverted form when no other entity of the old
    [windowIdMap] is saved under the same folder id.  With
    [windowIdMap = {1: x, 2: y}] and snapshots with ids 2 and 3 the resulting
    keys are 2 and 3. *)
Theorem syncWindowList_reconciles st cws :
  store_ok st →
  let chromeIds := ChromeWindow.id <$> cws in
  let closedWindows :=
    filter (λ tw, openWindowId tw ∉ (list_to_set chromeIds : gset Z)) (getOpen st) in
  let closedStore := foldl handleTabWindowClosed st closedWindows in
  let st' := syncWindowList st cws in
  st' = foldl syncChromeWindow closedStore cws ∧
  (∀ w, w ∈ closedWindows ↔ ∃ k, windowIdMap st !! k = Some w ∧ k ∉ chromeIds) ∧
  dom (windowIdMap st') = list_to_set chromeIds ∧
  (∀ k, windowIdMap st' !! k =
          if decide (k ∈ chromeIds)
          then mergeAll (windowIdMap st !! k) (filter (λ cw, ChromeWindow.id cw = k) cws)
          else None) ∧
  (NoDup chromeIds → ∀ cw, cw ∈ cws →
     windowIdMap st' !! ChromeWindow.id cw =
       Some (match windowIdMap st !! ChromeWindow.id cw with
             | Some prev => updateWindow prev cw
             | None => makeChromeTabWindow cw
             end)) ∧
  (∀ f, bookmarkIdMap st' !! f =
          match last (filter (λ e, saved e = true ∧ savedFolderId e = f)
                        (syncTrace closedStore cws)) with
          | Some e => Some e
          | None =>
              match last (filter (λ w, saved w = true ∧ savedFolderId w = f)
                            closedWindows) with
              | Some w => Some (removeOpenWindowState w)
              | None => bookmarkIdMap st !! f
              end
          end) ∧
  (∀ i cw, cws !! i = Some cw →
     syncTrace closedStore cws !! i =
       mergeAll (windowIdMap st !! ChromeWindow.id cw)
         (filter (λ c, ChromeWindow.id c = ChromeWindow.id cw) (take (S i) cws))) ∧
  (∀ k w, windowIdMap st !! k = Some w → k ∉ chromeIds → saved w = true →
     (∃ e, bookmarkIdMap st' !! savedFolderId w = Some e ∧
           saved e = true ∧ savedFolderId e = savedFolderId w) ∧
     ((∀ k' w', windowIdMap st !! k' = Some w' → saved w' = true →
                savedFolderId w' = savedFolderId w → k' = k) →
      bookmarkIdMap st' !! savedFolderId w = Some (removeOpenWindowState w))) ∧
  (∀ x y cw2 cw3,
     windowIdMap st = {[1 := x; 2 := y]} → cws = [cw2; cw3] →
     ChromeWindow.id cw2 = 2 → ChromeWindow.id cw3 = 3 →
     dom (windowIdMap st') = {[2; 3]}).
Proof.
  intros Hok chromeIds closedWindows closedStore st'.
  pose proof (syncWindowList_dom st cws Hok) as Hdom. fold chromeIds st' in Hdom.
  assert (∀ k, windowIdMap closedStore !! k =
               if decide (k ∈ chromeIds) then windowIdMap st !! k else None) as Hclosed.
  { intros k. subst closedStore closedWindows chromeIds.
    by apply closure_phase_windowIdMap. }
  assert (store_ok st') as [_ Hs'] by (subst st'; by apply store_ok_syncWindowList).
  split; [reflexivity|]. split; [|split; [exact Hdom|]].
  { intros w. by apply elem_of_closedWindows. }
  split; [|split; [|split; [|split; [|split]]]].
  - intros k. subst st'. rewrite syncWindowList_unfold.
    fold chromeIds closedWindows closedStore.
    rewrite foldl_sync_lookup_all, Hclosed.
    case_decide as Hk; [done|].
    assert (filter (λ cw, ChromeWindow.id cw = k) cws = []) as ->; [|done].
    apply elem_of_nil_inv. intros cw [Hid Hcw]%list_elem_of_filter.
    apply Hk. subst chromeIds. apply list_elem_of_fmap. eauto.
  - intros Hnd cw Hcw. subst st'. rewrite syncWindowList_unfold.
    fold chromeIds closedWindows closedStore.
    rewrite foldl_sync_lookup by done. f_equal. unfold syncedWindow.
    rewrite Hclosed, decide_True; [done|].
    subst chromeIds. apply list_elem_of_fmap. eauto.
  - intros f. subst st'. rewrite syncWindowList_unfold.
    fold chromeIds closedWindows closedStore.
    rewrite foldl_sync_bookmark_last.
    destruct (last (filter _ (syncTrace closedStore cws))); [done|].
    subst closedStore. apply foldl_close_bookmark_last.
  - intros i cw Hi. rewrite (syncTrace_lookup cws closedStore i cw Hi).
    rewrite Hclosed, decide_True; [done|].
    subst chromeIds. apply list_elem_of_fmap. exists cw. split; [done|].
    by apply list_elem_of_lookup_2 in Hi.
  - intros k w Hk Hnin Hsaved.
    assert (w ∈ closedWindows) as Hw by (apply elem_of_closedWindows; eauto).
    split.
    + assert (is_Some (bookmarkIdMap st' !! savedFolderId w)) as [e He].
      { subst st'. rewrite syncWindowList_unfold.
        fold chromeIds closedWindows closedStore.
        apply (foldl_invariant (λ s, is_Some (bookmarkIdMap s !! savedFolderId w)));
          [intros; by apply sync_bookmark_is_Some|].
        subst closedStore. by apply foldl_close_bookmark_is_Some. }
      exists e. split; [exact He|]. apply (Hs' _ _ He).
    + intros Huniq. subst st'. rewrite syncWindowList_unfold.
      fold chromeIds closedWindows closedStore.
      rewrite foldl_sync_bookmark.
      * subst closedStore. apply foldl_close_bookmark_unique; [done | done |].
        intros w' Hw' Hsw' Hf'.
        apply elem_of_closedWindows in Hw' as [k' [Hk' _]]; [|done].
        assert (k' = k) as -> by (by apply (Huniq k' w')).
        congruence.
      * intros k' w' Hk' Hsw' Hf'. rewrite Hclosed in Hk'.
        case_decide as Hin; [|done].
        assert (k' = k) as -> by (by apply (Huniq k' w')).
        done.
  - intros x y cw2 cw3 _ Hcws H2 H3. rewrite Hdom. subst chromeIds. rewrite Hcws.
    simpl. rewrite H2, H3. by rewrite union_empty_r_L.
Qed.

End Store.

(** ** Counting open tabs *)

Section OpenTabs.

(** [w.openTabCount]: the entity's getter, owned by tabWindow.js; an integer. *)
Variable openTabCount : TabWindow → Z.

(** [m.toIndexedSeq().toArray()], as in the store's other listings. *)
Variable toArray : gmap Z TabWindow → list TabWindow.


End OpenTabs.

(** ** Independence of the listing order *)

Section ListingOrder.

Variable openTabCount : TabWindow → Z.

Variable makeChromeTabWindow : ChromeWindow.t → TabWindow.
Variable updateWindow : TabWindow → ChromeWindow.t → TabWindow.
Variable removeOpenWindowState : TabWindow → TabWindow.

(** Two ways of listing the values of a map. *)
Variable toArray1 toArray2 : gmap Z TabWindow → list TabWindow.
Hypothesis toArray1_values : ∀ m, toArray1 m ≡ₚ (map_to_list m).*2.
Hypothesis toArray2_values : ∀ m, toArray2 m ≡ₚ (map_to_list m).*2.

Hypothesis removeOpenWindowState_open : ∀ w,
  open (removeOpenWindowState w) = false.

Lemma toArray_permutation (m : gmap Z TabWindow) : toArray1 m ≡ₚ toArray2 m.
Proof. by rewrite toArray1_values, toArray2_values. Qed.

(** X18: on a well-formed store, [windowIdMap], [currentWindowId] and the
    configuration after [syncWindowList] do not depend on the order in which
    the open windows are listed for the closure phase. *)
Theorem syncWindowList_listing_order st cws :
  store_ok st →
  let st1 := syncWindowList makeChromeTabWindow updateWindow removeOpenWindowState
               toArray1 st cws in
  let st2 := syncWindowList makeChromeTabWindow updateWindow removeOpenWindowState
               toArray2 st cws in
  windowIdMap st1 = windowIdMap st2 ∧
  currentWindowId st1 = currentWindowId st2 ∧
  config st1 = config st2.
Proof.
  intros Hok st1 st2. split; [|split].
  - subst st1 st2. rewrite !syncWindowList_unfold.
    apply foldl_sync_windowIdMap_ext. apply map_eq. intros k.
    by rewrite !closure_phase_windowIdMap.
  - subst st1 st2. by rewrite !syncWindowList_currentWindowId.
  - subst st1 st2. rewrite !syncWindowList_unfold.
    rewrite !(foldl_preserves (syncChromeWindow makeChromeTabWindow updateWindow) config)
      by apply sync_config.
    by rewrite !(foldl_preserves (handleTabWindowClosed removeOpenWindowState) config)
      by apply close_config.
Qed.





(** X20: two listing orders give the same [getAll] up to the order of its
    entries. *)
Theorem getAll_listing_order st :
  getAll toArray1 st ≡ₚ getAll toArray2 st ∧
  length (getAll toArray1 st) = length (getAll toArray2 st).
Proof.
  assert (getAll toArray1 st ≡ₚ getAll toArray2 st) as Hperm.
  { unfold getAll, getOpen.
    by rewrite (toArray_permutation (windowIdMap st)),
               (toArray_permutation (bookmarkIdMap st)). }
  split; [exact Hperm | by rewrite Hperm].
Qed.

End ListingOrder.

(** ** The model of tabWindow.js meets the contract *)

Module ModelContract.
Import TabWindowModel.

Lemma toArray_values (m : gmap Z TabWindow) : toArray m ≡ₚ (map_to_list m).*2.
Proof. reflexivity. Qed.

Lemma makeChromeTabWindow_open cw :
  open (makeChromeTabWindow cw) = true ∧
  openWindowId (makeChromeTabWindow cw) = ChromeWindow.id cw.
Proof. by split. Qed.

Lemma makeChromeTabWindow_unsaved cw : saved (makeChromeTabWindow cw) = false.
Proof. reflexivity. Qed.

Lemma updateWindow_open w cw :
  open (updateWindow w cw) = true ∧
  openWindowId (updateWindow w cw) = ChromeWindow.id cw.
Proof. by split. Qed.

Lemma updateWindow_saved w cw :
  saved (updateWindow w cw) = saved w ∧
  savedFolderId (updateWindow w cw) = savedFolderId w.
Proof. by split. Qed.

Lemma removeOpenWindowState_open w : open (removeOpenWindowState w) = false.
Proof. reflexivity. Qed.

Lemma removeOpenWindowState_saved w :
  saved (removeOpenWindowState w) = saved w ∧
  savedFolderId (removeOpenWindowState w) = savedFolderId w.
Proof. by split. Qed.

Lemma makeFolderTabWindow_saved f :
  saved (makeFolderTabWindow f) = true ∧
  savedFolderId (makeFolderTabWindow f) = BookmarkFolder.id f.
Proof. by split. Qed.

End ModelContract.

(** ** The store over the model *)

Module Model.
Import TabWindowModel.

Definition applyOp : TabManagerState → StoreOp → TabManagerState :=
  applyOp makeChromeTabWindow makeFolderTabWindow updateWindow removeOpenWindowState
    removeSavedWindowState closeTab saveTab unsaveTab setActiveTab updateTabItem toArray.

Definition reachable : TabManagerState → Prop :=
  reachable makeChromeTabWindow makeFolderTabWindow updateWindow removeOpenWindowState
    removeSavedWindowState closeTab saveTab unsaveTab setActiveTab updateTabItem toArray.

Definition handleTabWindowClosed := handleTabWindowClosed removeOpenWindowState.
Definition attachChromeWindow := attachChromeWindow updateWindow removeOpenWindowState.
Definition attachBookmarkFolder := attachBookmarkFolder makeFolderTabWindow updateWindow.
Definition syncWindowList :=
  syncWindowList makeChromeTabWindow updateWindow removeOpenWindowState toArray.
Definition getOpen := getOpen toArray.
Definition getAll := getAll toArray.

(** Host data for the scenarios below. *)
Definition tab (n : Z) (url : string) : ChromeTab := mkChromeTab n url false.

Definition cw1 : ChromeWindow.t := ChromeWindow.mk 1 false [tab 11 "https://a.example/"].
Definition cw2 : ChromeWindow.t := ChromeWindow.mk 2 false [tab 21 "https://b.example/"].
Definition cw3 : ChromeWindow.t := ChromeWindow.mk 3 true [tab 31 "https://c.example/"].
Definition cw7 : ChromeWindow.t := ChromeWindow.mk 7 false [tab 71 "https://d.example/"].

Definition folder10 : BookmarkFolder.t :=
  BookmarkFolder.mk 10 "reading" [mkBookmarkNode 101 "https://e.example/"].
Definition folder11 : BookmarkFolder.t :=
  BookmarkFolder.mk 11 "work" [mkBookmarkNode 111 "https://f.example/"].

(** Window 7, open and saved as folder 10. *)
Definition win7 : TabWindow := updateWindow (makeFolderTabWindow folder10) cw7.

(** A store holding [win7] in both indices. *)
Definition store7 : TabManagerState := registerTabWindow emptyState win7.

(** Windows 1 and 2 open, window 1 saved as folder 10. *)
Definition win1 : TabWindow := updateWindow (makeFolderTabWindow folder10) cw1.
Definition win2 : TabWindow := makeChromeTabWindow cw2.
Definition store12 : TabManagerState := registerTabWindows emptyState [win1; win2].

(** Folder 10 attached first to window 2, then to window 1: both windows are
    saved under folder 10, and [bookmarkIdMap] holds the later one. *)
Definition storeShared : TabManagerState :=
  applyOp (applyOp emptyState (AttachBookmarkFolder folder10 cw2))
    (AttachBookmarkFolder folder10 cw1).

(** Folder 10 as read again later, with one more bookmark. *)
Definition folder10' : BookmarkFolder.t :=
  BookmarkFolder.mk 10 "reading"
    [mkBookmarkNode 101 "https://e.example/"; mkBookmarkNode 102 "https://g.example/"].

(** A store built by a sync, two folder attachments and a close: windows 2
    and 3 stay open, window 2 is saved as folder 10, and folder 11 keeps the
    reverted form of the closed window 1. *)
Definition storeDemo : TabManagerState :=
  applyOp (applyOp (applyOp (applyOp emptyState
    (SyncWindowList [cw1; cw2; cw3]))
    (AttachBookmarkFolder folder10 cw2))
    (AttachBookmarkFolder folder11 cw1))
    (HandleTabWindowClosed (updateWindow (makeFolderTabWindow folder11) cw1)).

End Model.

Lemma store_ok_emptyState : store_ok emptyState.
Proof. split; apply map_Forall_empty. Qed.

Lemma storeDemo_reachable : Model.reachable Model.storeDemo.
Proof.
  unfold Model.storeDemo, Model.reachable, Model.applyOp.
  do 4 apply reachable_step. apply reachable_init.
Qed.

Lemma storeShared_reachable : Model.reachable Model.storeShared.
Proof.
  unfold Model.storeShared, Model.reachable, Model.applyOp.
  do 2 apply reachable_step. apply reachable_init.
Qed.

Lemma store7_ok : store_ok Model.store7.
Proof. apply store_ok_register, store_ok_emptyState. Qed.

Lemma store12_ok : store_ok Model.store12.
Proof. do 2 apply store_ok_register. apply store_ok_emptyState. Qed.

(** ** Evaluating the store on the scenarios *)

(** Exactly one snapshot, window 3, reports focus. *)
Example sync_focus_example :
  currentWindowId (Model.syncWindowList emptyState [Model.cw1; Model.cw3; Model.cw2]) = 3.
Proof. reflexivity. Qed.

(** Windows 1 and 2 open; the host lists windows 2 and 3. *)
Example sync_keys_example :
  (map_to_list (windowIdMap (Model.syncWindowList Model.store12 [Model.cw2; Model.cw3]))).*1
    = [3; 2].
Proof. reflexivity. Qed.

Example getAll_example :
  openWindowId <$> Model.getAll Model.storeDemo = [3; 2; -1].
Proof. reflexivity. Qed.

(** ** The theorems on concrete stores *)

(** The flag invariant on a store built by a sync, two attachments and a close. *)
Lemma reachable_index_flags_witness :
  Model.reachable Model.storeDemo ∧
  (∀ k w, windowIdMap Model.storeDemo !! k = Some w → open w = true) ∧
  (∀ k w, bookmarkIdMap Model.storeDemo !! k = Some w → saved w = true).
Proof.
  split; [exact storeDemo_reachable|].
  exact (reachable_index_flags _ _ _ _ _ _ _ _ _ _ _ _ storeDemo_reachable).
Defined.

(** The same store lists three entities, none twice. *)
Lemma getAll_no_duplicates_witness :
  Model.reachable Model.storeDemo ∧
  length (Model.getAll Model.storeDemo) = 3%nat ∧
  NoDup (Model.getAll Model.storeDemo).
Proof.
  split; [exact storeDemo_reachable|]. split; [reflexivity|].
  exact (proj1 (proj2 (proj2
    (getAll_no_duplicates _ _ _ _ _ _ _ _ _ _ _ ModelContract.toArray_values
       _ storeDemo_reachable)))).
Defined.

(** Closing the saved window 7, and closing the unsaved window 2. *)
Lemma handleTabWindowClosed_effect_witness :
  (saved Model.win7 = true ∧
   windowIdMap (Model.handleTabWindowClosed Model.store7 Model.win7) !! 7 = None ∧
   bookmarkIdMap (Model.handleTabWindowClosed Model.store7 Model.win7) !! 10
     = Some (TabWindowModel.removeOpenWindowState Model.win7)) ∧
  (saved Model.win2 = false ∧ store_ok Model.store12 ∧
   ∀ k, windowIdMap (Model.handleTabWindowClosed Model.store12 Model.win2) !! k
          ≠ Some Model.win2 ∧
        bookmarkIdMap (Model.handleTabWindowClosed Model.store12 Model.win2) !! k
          ≠ Some Model.win2).
Proof.
  split.
  - destruct (handleTabWindowClosed_effect _
                ModelContract.removeOpenWindowState_open
                ModelContract.removeOpenWindowState_saved
                Model.store7 Model.win7) as (Hgone & Hsaved & _).
    split; [reflexivity|]. split; [exact Hgone|].
    exact (proj1 (Hsaved eq_refl)).
  - destruct (handleTabWindowClosed_effect _
                ModelContract.removeOpenWindowState_open
                ModelContract.removeOpenWindowState_saved
                Model.store12 Model.win2) as (_ & _ & Hunsaved).
    split; [reflexivity|]. split; [exact store12_ok|].
    intros k. destruct (proj2 (Hunsaved eq_refl) store12_ok k) as (H1 & H2 & _).
    by split.
Defined.

(** Closing window 7 and attaching its reverted form to window 7 again. *)
Lemma close_then_attach_roundtrip_witness :
  open Model.win7 = true ∧ saved Model.win7 = true ∧
  ChromeWindow.id Model.cw7 = openWindowId Model.win7 ∧
  ∃ w', windowIdMap
          (Model.attachChromeWindow (Model.handleTabWindowClosed Model.store7 Model.win7)
             (TabWindowModel.removeOpenWindowState Model.win7) Model.cw7) !! 7 = Some w' ∧
        bookmarkIdMap
          (Model.attachChromeWindow (Model.handleTabWindowClosed Model.store7 Model.win7)
             (TabWindowModel.removeOpenWindowState Model.win7) Model.cw7) !! 10 = Some w' ∧
        open w' = true ∧ saved w' = true ∧ savedFolderId w' = 10.
Proof.
  do 3 (split; [reflexivity|]).
  destruct (close_then_attach_roundtrip _ _
              ModelContract.updateWindow_open ModelContract.updateWindow_saved
              ModelContract.removeOpenWindowState_saved
              Model.store7 Model.win7 Model.cw7 eq_refl eq_refl eq_refl)
    as (_ & w' & Ho & Hs & Hopen & Hsaved & _ & Hfolder).
  exists w'. repeat split; assumption.
Defined.

(** Attaching to window 7, occupied by an entity saved as folder 10, first
    the entity of folder 11, then an entity of folder 10 itself. *)
Lemma attachChromeWindow_evicts_witness :
  store_ok Model.store7 ∧
  windowIdMap Model.store7 !! 7 = Some Model.win7 ∧
  (windowIdMap
     (Model.attachChromeWindow Model.store7
        (TabWindowModel.makeFolderTabWindow Model.folder11) Model.cw7) !! 7
   = Some (TabWindowModel.updateWindow
             (TabWindowModel.makeFolderTabWindow Model.folder11) Model.cw7) ∧
   bookmarkIdMap
     (Model.attachChromeWindow Model.store7
        (TabWindowModel.makeFolderTabWindow Model.folder11) Model.cw7) !! 10
   = Some (TabWindowModel.removeOpenWindowState Model.win7)) ∧
  bookmarkIdMap
    (Model.attachChromeWindow Model.store7
       (TabWindowModel.makeFolderTabWindow Model.folder10') Model.cw7) !! 10
  = Some (TabWindowModel.updateWindow
            (TabWindowModel.makeFolderTabWindow Model.folder10') Model.cw7).
Proof.
  split; [exact store7_ok|]. split; [reflexivity|]. split.
  - destruct (attachChromeWindow_evicts _ _
                ModelContract.updateWindow_open ModelContract.updateWindow_saved
                ModelContract.removeOpenWindowState_open
                ModelContract.removeOpenWindowState_saved
                Model.store7 Model.win7
                (TabWindowModel.makeFolderTabWindow Model.folder11) Model.cw7
                store7_ok eq_refl)
      as (_ & Hnew & _ & _ & Hold & _).
    split; [exact Hnew|]. apply Hold; [reflexivity|].
    intros [_ Hshared]. discriminate Hshared.
  - destruct (attachChromeWindow_evicts _ _
                ModelContract.updateWindow_open ModelContract.updateWindow_saved
                ModelContract.removeOpenWindowState_open
                ModelContract.removeOpenWindowState_saved
                Model.store7 Model.win7
                (TabWindowModel.makeFolderTabWindow Model.folder10') Model.cw7
                store7_ok eq_refl)
      as (_ & _ & _ & _ & _ & Hshared).
    exact (proj1 (Hshared eq_refl eq_refl)).
Defined.


Lemma store12_windowIdMap :
  windowIdMap Model.store12 = {[1 := Model.win1; 2 := Model.win2]}.
Proof. by vm_compute. Qed.

Lemma store12_folder10_unique k' w' :
  windowIdMap Model.store12 !! k' = Some w' → saved w' = true →
  savedFolderId w' = savedFolderId Model.win1 → k' = 1.
Proof.
  rewrite store12_windowIdMap. intros Hk' Hsaved _.
  apply lookup_insert_Some in Hk' as [[<- _]|[_ Hk']]; [done|].
  apply lookup_singleton_Some in Hk' as [_ <-]. discriminate Hsaved.
Qed.

Lemma storeShared_ok : store_ok Model.storeShared.
Proof.
  exact (reachable_store_ok _ _ _ _ _ _ _ _ _ _ _ Model.storeShared storeShared_reachable).
Qed.

(** Windows 1 and 2 open, window 1 saved; the host then lists windows 2 and
    3.  And windows 1 and 2 both saved under folder 10; the host then lists
    window 2 only, and the last write under folder 10 is window 2's. *)
Lemma syncWindowList_reconciles_witness :
  store_ok Model.store12 ∧
  windowIdMap Model.store12 = {[1 := Model.win1; 2 := Model.win2]} ∧
  dom (windowIdMap (Model.syncWindowList Model.store12 [Model.cw2; Model.cw3])) = {[2; 3]} ∧
  windowIdMap (Model.syncWindowList Model.store12 [Model.cw2; Model.cw3]) !! 2
    = Some (TabWindowModel.updateWindow Model.win2 Model.cw2) ∧
  bookmarkIdMap (Model.syncWindowList Model.store12 [Model.cw2; Model.cw3]) !! 10
    = Some (TabWindowModel.removeOpenWindowState Model.win1) ∧
  store_ok Model.storeShared ∧
  bookmarkIdMap (Model.syncWindowList Model.storeShared [Model.cw2]) !! 10
    = Some (TabWindowModel.updateWindow
              (TabWindowModel.updateWindow
                 (TabWindowModel.makeFolderTabWindow Model.folder10) Model.cw2) Model.cw2).
Proof.
  split; [exact store12_ok|]. split; [exact store12_windowIdMap|].
  destruct (syncWindowList_reconciles _ _ _ _
              ModelContract.toArray_values
              ModelContract.makeChromeTabWindow_open
              ModelContract.makeChromeTabWindow_unsaved
              ModelContract.updateWindow_open ModelContract.updateWindow_saved
              ModelContract.removeOpenWindowState_open
              ModelContract.removeOpenWindowState_saved
              Model.store12 [Model.cw2; Model.cw3] store12_ok)
    as (_ & _ & _ & Hkeys & _ & _ & _ & Hsaved & Hexample).
  destruct (syncWindowList_reconciles _ _ _ _
              ModelContract.toArray_values
              ModelContract.makeChromeTabWindow_open
              ModelContract.makeChromeTabWindow_unsaved
              ModelContract.updateWindow_open ModelContract.updateWindow_saved
              ModelContract.removeOpenWindowState_open
              ModelContract.removeOpenWindowState_saved
              Model.storeShared [Model.cw2] storeShared_ok)
    as (_ & _ & _ & _ & _ & Hlast & _).
  split; [|split; [|split; [|split]]].
  - exact (Hexample Model.win1 Model.win2 Model.cw2 Model.cw3
             store12_windowIdMap eq_refl eq_refl eq_refl).
  - exact (Hkeys 2).
  - assert (1 ∉ ChromeWindow.id <$> [Model.cw2; Model.cw3]) as Hnin.
    { intros Hin. apply elem_of_cons in Hin as [Hin|Hin]; [discriminate Hin|].
      apply elem_of_cons in Hin as [Hin|Hin]; [discriminate Hin|].
      by apply elem_of_nil in Hin. }
    exact (proj2 (Hsaved 1 Model.win1 eq_refl Hnin eq_refl) store12_folder10_unique).
  - exact storeShared_ok.
  - exact (Hlast 10).
Defined.

(** ** Where the claims as first stated fail *)

(** C2, as stated, fails: folder 10 was attached to window 2 and then to
    window 1, so both open windows are saved under folder 10 and
    [bookmarkIdMap] holds window 1's entity.  A sync with only window 2 in
    the list closes window 1, but the sync of window 2 then writes its own
    merged entity under folder 10: the closed, saved entity is left in
    [bookmarkIdMap] neither as it was nor in reverted form. *)
Lemma syncWindowList_shared_folder_counterexample :
  Model.reachable Model.storeShared ∧
  windowIdMap Model.storeShared !! 1 = Some Model.win1 ∧
  bookmarkIdMap Model.storeShared !! 10 = Some Model.win1 ∧
  saved Model.win1 = true ∧
  windowIdMap (Model.syncWindowList Model.storeShared [Model.cw2]) !! 1 = None ∧
  ∃ e, bookmarkIdMap (Model.syncWindowList Model.storeShared [Model.cw2]) = {[10 := e]} ∧
       openWindowId e = 2 ∧
       e ≠ Model.win1 ∧
       e ≠ TabWindowModel.removeOpenWindowState Model.win1.
Proof.
  split; [exact storeShared_reachable|].
  do 4 (split; [reflexivity|]).
  eexists. split; [by vm_compute|].
  split; [reflexivity|]. split; discriminate.
Qed.

(** C4, as stated, fails: window 7 is open and saved as folder 10, and the
    entity attached to the snapshot of window 7 is a different one, made from
    a later reading of folder 10.  The occupant is closed and its reverted
    form registered under folder 10, and then the merged entity, saved under
    the same folder id, replaces it: the occupant's reverted form is not in
    [bookmarkIdMap]. *)
Lemma attachChromeWindow_same_folder_counterexample :
  windowIdMap Model.store7 !! 7 = Some Model.win7 ∧
  saved Model.win7 = true ∧
  TabWindowModel.makeFolderTabWindow Model.folder10' ≠ Model.win7 ∧
  ∃ e, bookmarkIdMap
         (Model.attachChromeWindow Model.store7
            (TabWindowModel.makeFolderTabWindow Model.folder10') Model.cw7) = {[10 := e]} ∧
       e = TabWindowModel.updateWindow
             (TabWindowModel.makeFolderTabWindow Model.folder10') Model.cw7 ∧
       e ≠ TabWindowModel.removeOpenWindowState Model.win7.
Proof.
  do 2 (split; [reflexivity|]). split; [discriminate|].
  eexists. split; [by vm_compute|]. split; [reflexivity | discriminate].
Qed.


(** ** The further properties on concrete stores *)

Lemma model_removeSavedWindowState_saved w :
  saved (TabWindowModel.removeSavedWindowState w) = false.
Proof. reflexivity. Qed.

Lemma model_removeSavedWindowState_open w :
  open (TabWindowModel.removeSavedWindowState w) = open w ∧
  openWindowId (TabWindowModel.removeSavedWindowState w) = openWindowId w.
Proof. by split. Qed.

(** A second listing of a map's values: by descending key encoding. *)
Definition toArrayRev (m : gmap Z TabWindow) : list TabWindow :=
  reverse (TabWindowModel.toArray m).

Lemma toArrayRev_values (m : gmap Z TabWindow) : toArrayRev m ≡ₚ (map_to_list m).*2.
Proof. unfold toArrayRev, TabWindowModel.toArray. apply reverse_Permutation. Qed.

(** Window 7 focused. *)
Definition store7focused : TabManagerState := setCurrentWindow Model.store7 7.

Lemma store7_registered : registered Model.store7 Model.win7.
Proof. split; intros _; reflexivity. Qed.

(** Windows 1 (saved under folder 10) and 2 (not saved) share no key. *)
Lemma registerTabWindow_commute_witness :
  openWindowId Model.win1 ≠ openWindowId Model.win2 ∧
  saved Model.win2 = false ∧
  registerTabWindow (registerTabWindow emptyState Model.win1) Model.win2 =
  registerTabWindow (registerTabWindow emptyState Model.win2) Model.win1.
Proof.
  assert (openWindowId Model.win1 ≠ openWindowId Model.win2) as Hne by (simpl; lia).
  split; [exact Hne|]. split; [reflexivity|].
  apply (registerTabWindow_commute emptyState Model.win1 Model.win2).
  - intros _ _. exact Hne.
  - intros _ Hsaved. discriminate Hsaved.
Defined.

(** Closing window 7 twice. *)
Lemma handleTabWindowClosed_idempotent_witness :
  Model.handleTabWindowClosed (Model.handleTabWindowClosed Model.store7 Model.win7) Model.win7
  = Model.handleTabWindowClosed Model.store7 Model.win7.
Proof.
  exact (handleTabWindowClosed_idempotent _
           ModelContract.removeOpenWindowState_open
           ModelContract.removeOpenWindowState_saved Model.store7 Model.win7).
Defined.

(** Closing the unsaved window 2, which the store does not hold. *)
Lemma handleTabWindowClosed_absent_witness :
  getTabWindowByChromeId Model.store7 (openWindowId Model.win2) = None ∧
  saved Model.win2 = false ∧
  Model.handleTabWindowClosed Model.store7 Model.win2 = Model.store7.
Proof.
  do 2 (split; [reflexivity|]).
  exact (handleTabWindowClosed_absent _
           ModelContract.removeOpenWindowState_open
           ModelContract.removeOpenWindowState_saved
           Model.store7 Model.win2 eq_refl eq_refl).
Defined.

(** Closing the focused window 7. *)
Lemma handleTabWindowClosed_dangling_focus_witness :
  currentWindowId store7focused = openWindowId Model.win7 ∧
  currentWindowId (Model.handleTabWindowClosed store7focused Model.win7) = 7 ∧
  getTabWindowByChromeId (Model.handleTabWindowClosed store7focused Model.win7)
    (currentWindowId (Model.handleTabWindowClosed store7focused Model.win7)) = None.
Proof.
  split; [reflexivity|].
  exact (handleTabWindowClosed_dangling_focus _
           ModelContract.removeOpenWindowState_open
           store7focused Model.win7 eq_refl).
Defined.

(** Un-managing window 7, saved as folder 10. *)
Lemma unmanageWindow_effect_witness :
  bookmarkIdMap (unmanageWindow TabWindowModel.removeSavedWindowState Model.store7 Model.win7)
    = delete 10 (bookmarkIdMap Model.store7) ∧
  countSavedWindows Model.store7 =
    S (countSavedWindows
         (unmanageWindow TabWindowModel.removeSavedWindowState Model.store7 Model.win7)).
Proof.
  destruct (unmanageWindow_effect _
              model_removeSavedWindowState_saved model_removeSavedWindowState_open
              Model.store7 Model.win7) as (Hbm & _ & Hcount & _).
  split; [exact Hbm|]. apply Hcount. by exists Model.win7.
Defined.

(** Attaching folder 10 to window 7 in the empty store, then un-managing. *)
Lemma attachBookmarkFolder_unmanage_roundtrip_witness :
  bookmarkIdMap emptyState !! BookmarkFolder.id Model.folder10 = None ∧
  bookmarkIdMap
    (unmanageWindow TabWindowModel.removeSavedWindowState
       (Model.attachBookmarkFolder emptyState Model.folder10 Model.cw7) Model.win7)
    = bookmarkIdMap emptyState ∧
  getTabWindowByChromeId
    (unmanageWindow TabWindowModel.removeSavedWindowState
       (Model.attachBookmarkFolder emptyState Model.folder10 Model.cw7) Model.win7) 7
    = Some (TabWindowModel.removeSavedWindowState Model.win7).
Proof.
  split; [reflexivity|].
  destruct (attachBookmarkFolder_unmanage_roundtrip _ _ _
              ModelContract.updateWindow_open ModelContract.updateWindow_saved
              ModelContract.makeFolderTabWindow_saved
              model_removeSavedWindowState_saved model_removeSavedWindowState_open
              emptyState Model.folder10 Model.cw7 eq_refl) as (Hbm & Hopen & _).
  split; [exact Hbm | exact Hopen].
Defined.

(** Attaching a folder does not move the focus. *)
Lemma applyOp_focus_frame_witness :
  writesFocus (AttachBookmarkFolder Model.folder10 Model.cw7) = false ∧
  currentWindowId (Model.applyOp store7focused (AttachBookmarkFolder Model.folder10 Model.cw7))
    = 7.
Proof.
  split; [reflexivity|].
  exact (applyOp_focus_frame
           TabWindowModel.makeChromeTabWindow TabWindowModel.makeFolderTabWindow
           TabWindowModel.updateWindow TabWindowModel.removeOpenWindowState
           TabWindowModel.removeSavedWindowState TabWindowModel.closeTab
           TabWindowModel.saveTab TabWindowModel.unsaveTab TabWindowModel.setActiveTab
           TabWindowModel.updateTabItem TabWindowModel.toArray store7focused
           (AttachBookmarkFolder Model.folder10 Model.cw7) eq_refl).
Defined.

(** Window 3 is new to the store holding windows 1 and 2. *)
Lemma syncChromeWindow_open_count_witness :
  getTabWindowByChromeId Model.store12 3 = None ∧
  countOpenWindows
    (syncChromeWindow TabWindowModel.makeChromeTabWindow TabWindowModel.updateWindow
       Model.store12 Model.cw3) = 3%nat.
Proof.
  split; [reflexivity|].
  destruct (syncChromeWindow_open_count _ _
              ModelContract.makeChromeTabWindow_open ModelContract.updateWindow_open
              Model.store12 Model.cw3) as (_ & _ & Hcount).
  exact Hcount.
Defined.

(** The host reports no window at all. *)
Lemma syncWindowList_nil_witness :
  store_ok Model.store12 ∧
  windowIdMap (Model.syncWindowList Model.store12 []) = ∅ ∧
  is_Some (bookmarkIdMap (Model.syncWindowList Model.store12 []) !! 10).
Proof.
  split; [exact store12_ok|].
  destruct (syncWindowList_nil
              TabWindowModel.makeChromeTabWindow TabWindowModel.updateWindow _ _
              ModelContract.toArray_values
              ModelContract.removeOpenWindowState_open
              ModelContract.removeOpenWindowState_saved
              Model.store12 store12_ok) as (Hempty & _ & _ & Hsaved).
  split; [exact Hempty|].
  exact (Hsaved 1 Model.win1 eq_refl eq_refl).
Defined.

(** The host lists windows 2 and 3 twice in a row. *)
Lemma syncWindowList_again_witness :
  store_ok Model.store12 ∧
  Model.syncWindowList (Model.syncWindowList Model.store12 [Model.cw2; Model.cw3])
    [Model.cw2; Model.cw3]
  = foldl (syncChromeWindow TabWindowModel.makeChromeTabWindow TabWindowModel.updateWindow)
      (Model.syncWindowList Model.store12 [Model.cw2; Model.cw3]) [Model.cw2; Model.cw3].
Proof.
  split; [exact store12_ok|].
  exact (syncWindowList_again _ _ _ _
           ModelContract.toArray_values
           ModelContract.makeChromeTabWindow_open ModelContract.updateWindow_open
           ModelContract.removeOpenWindowState_open
           Model.store12 [Model.cw2; Model.cw3] store12_ok).
Defined.

(** Attaching the entity of folder 11 to the occupied window 7. *)
Lemma attachChromeWindow_windowIdMap_witness :
  store_ok Model.store7 ∧
  windowIdMap
    (Model.attachChromeWindow Model.store7
       (TabWindowModel.makeFolderTabWindow Model.folder11) Model.cw7)
  = <[7 := TabWindowModel.updateWindow
             (TabWindowModel.makeFolderTabWindow Model.folder11) Model.cw7]>
      (windowIdMap Model.store7) ∧
  countOpenWindows
    (Model.attachChromeWindow Model.store7
       (TabWindowModel.makeFolderTabWindow Model.folder11) Model.cw7) = 1%nat.
Proof.
  split; [exact store7_ok|].
  exact (attachChromeWindow_windowIdMap _ _
           ModelContract.updateWindow_open ModelContract.removeOpenWindowState_open
           Model.store7 (TabWindowModel.makeFolderTabWindow Model.folder11) Model.cw7
           store7_ok).
Defined.

(** Tab 71 of window 7 is closed. *)
Lemma tab_handlers_replace_in_place_witness :
  registered Model.store7 Model.win7 ∧
  same_keys Model.win7 (TabWindowModel.closeTab Model.win7 71) ∧
  replaced_in_place Model.store7
    (handleTabClosed TabWindowModel.closeTab Model.store7 Model.win7 71)
    Model.win7 (TabWindowModel.closeTab Model.win7 71).
Proof.
  assert (same_keys Model.win7 (TabWindowModel.closeTab Model.win7 71)) as Hkeys
    by (by repeat split).
  split; [exact store7_registered|]. split; [exact Hkeys|].
  exact (proj1 (tab_handlers_replace_in_place
                  TabWindowModel.closeTab TabWindowModel.saveTab TabWindowModel.unsaveTab
                  TabWindowModel.setActiveTab TabWindowModel.updateTabItem
                  Model.store7 Model.win7 store7_registered) 71 Hkeys).
Defined.

(** The keys of the store built by a sync, two attachments and a close. *)
Lemma reachable_index_keys_witness :
  Model.reachable Model.storeDemo ∧
  ∀ k w, (getTabWindowByChromeId Model.storeDemo k = Some w → openWindowId w = k) ∧
         (bookmarkIdMap Model.storeDemo !! k = Some w → savedFolderId w = k).
Proof.
  split; [exact storeDemo_reachable|].
  intros k w.
  exact (reachable_index_keys _ _ _ _ _ _ _ _ _ _ _ Model.storeDemo k w
           storeDemo_reachable).
Defined.

(** Two open windows, two saved ones, three entities listed. *)
Lemma counts_match_listings_witness :
  countOpenWindows Model.storeDemo = 2%nat ∧
  countSavedWindows Model.storeDemo = 2%nat ∧
  countOpenWindows Model.storeDemo = length (Model.getOpen Model.storeDemo) ∧
  (length (Model.getAll Model.storeDemo)
     ≤ countOpenWindows Model.storeDemo + countSavedWindows Model.storeDemo)%nat.
Proof.
  do 2 (split; [reflexivity|]).
  destruct (counts_match_listings _ ModelContract.toArray_values Model.storeDemo)
    as (Hopen & _ & _ & Hall).
  split; [exact Hopen | exact Hall].
Defined.

(** Both open windows of the store are normal windows. *)
Lemma getTabWindowsByType_spec_witness :
  length (getTabWindowsByType TabWindowModel.toArray Model.storeDemo "normal") = 2%nat ∧
  getTabWindowsByType TabWindowModel.toArray Model.storeDemo "normal"
    `sublist_of` Model.getOpen Model.storeDemo ∧
  getTabWindowsByType TabWindowModel.toArray Model.storeDemo "popup" = [].
Proof.
  split; [reflexivity|]. split; [|reflexivity].
  exact (proj1 (proj2 (getTabWindowsByType_spec _ ModelContract.toArray_values
                         Model.storeDemo "normal"))).
Defined.

(** The same sync with the open windows listed in either order. *)
Lemma syncWindowList_listing_order_witness :
  store_ok Model.store12 ∧
  windowIdMap (Model.syncWindowList Model.store12 [Model.cw2; Model.cw3]) =
  windowIdMap
    (syncWindowList TabWindowModel.makeChromeTabWindow TabWindowModel.updateWindow
       TabWindowModel.removeOpenWindowState toArrayRev Model.store12 [Model.cw2; Model.cw3]).
Proof.
  split; [exact store12_ok|].
  exact (proj1 (syncWindowList_listing_order
                  TabWindowModel.makeChromeTabWindow TabWindowModel.updateWindow _ _ _
                  ModelContract.toArray_values toArrayRev_values
                  ModelContract.removeOpenWindowState_open
                  Model.store12 [Model.cw2; Model.cw3] store12_ok)).
Defined.



(** The two listings of the store's entities. *)
Lemma getAll_listing_order_witness :
  Model.getAll Model.storeDemo ≠ getAll toArrayRev Model.storeDemo ∧
  Model.getAll Model.storeDemo ≡ₚ getAll toArrayRev Model.storeDemo.
Proof.
  split; [discriminate|].
  exact (proj1 (getAll_listing_order _ _
                  ModelContract.toArray_values toArrayRev_values Model.storeDemo)).
Defined.
